(** * maddy: check actions and DNS identity checks

    A shallow embedding of two Go packages of maddy:
    - [check]  (FailAction, FailActionDirective, ParseActionDirective, Apply,
               ParseRejectDirective, parseEnhancedCode);
    - [dns]    (requireMatchingRDNS, requireMXRecord, requireMatchingEHLO,
               init).

    Go values are modelled as follows.
    - [int] is [Z]; every integer the code computes with comes out of
      [strconv.Atoi], which bounds it to 64 bits, and [/] is [Z.quot].
    - [string] is [string] (a sequence of bytes, as in Go).
    - A Go function returning [(T, error)] returns a pair [T * option error];
      [None] is the nil error.
    - The [error] interface is the inductive type [error], one constructor per
      dynamic type the code builds or inspects.
    - [map[string]interface{}] is a [gmap string string]: the only values the
      code stores are strings.
    - Calls to the resolver and to the logger are recorded in a trace. *)

From Stdlib Require Import ZArith Ascii String List Bool Lia.
From stdpp Require Import base strings gmap list.

Local Open Scope string_scope.
Local Open Scope Z_scope.

(** ** The [error] interface and [exterrors] *)

(** [strconv.ErrSyntax] and [strconv.ErrRange]. *)
Inductive numErr : Type := ErrSyntax | ErrRange.

(** [exterrors.EnhancedCode] is [[3]int]. *)
Definition EnhancedCodeT : Type := (Z * Z * Z)%type.

(** Modelled from the spec: the declaration of [exterrors.SMTPError] is not
    among the sources; these are the fields the sources set (numeric code,
    enhanced code, message, check name, wrapped cause, diagnostic fields, and
    the reason tag of the reject directive).  The wrapped cause [Err] has the
    [error] interface type, so the record is parametric in it and [error]
    ties the knot below. *)
Record SMTPError_ (E : Type) : Type := mkSMTPError {
  Code : Z;
  EnhancedCode : EnhancedCodeT;
  Message : string;
  CheckName : string;
  Err : option E;
  Misc : gmap string string;
  Reason : string
}.
Arguments mkSMTPError {E}.
Arguments Code {E}.
Arguments EnhancedCode {E}.
Arguments Message {E}.
Arguments CheckName {E}.
Arguments Err {E}.
Arguments Misc {E}.
Arguments Reason {E}.

#[local] Set Warnings "-register-all".
Inductive error : Type :=
| errorString (s : string)
    (* errors.New(s) *)
| Errorf (format : string) (args : list error)
    (* fmt.Errorf(format, args...) with %v verbs only: the text is kept as
       format and arguments; such an error wraps nothing *)
| NumError (Func Num : string) (e : numErr)
    (* *strconv.NumError *)
| SMTPErr (e : SMTPError_ error)
    (* *exterrors.SMTPError *)
| fieldsErr (err : error) (fields : gmap string string).
    (* the value of exterrors.WithFields(err, fields) *)

Abbreviation SMTPError := (SMTPError_ error).

(** Modelled from the spec: [exterrors.WithFields] is not among the sources;
    it wraps the underlying error with context fields. *)
Definition WithFields (err : error) (fields : gmap string string) : error :=
  fieldsErr err fields.

(** Modelled from the spec: the [Unwrap] methods of [exterrors] are not among
    the sources; the next cause of an [SMTPError] is its [Err], that of a
    fields wrapper the error it annotates, and the other errors wrap
    nothing. *)
Definition Unwrap (e : error) : option error :=
  match e with
  | SMTPErr s => Err s
  | fieldsErr err _ => Some err
  | _ => None
  end.

(** The cause chain of an error: the error itself, then what it unwraps to,
    and so on to the end. *)
Fixpoint chain (e : error) : list error :=
  e :: match e with
       | SMTPErr s => match Err s with
                      | Some c => chain c
                      | None => []
                      end
       | fieldsErr err _ => chain err
       | _ => []
       end.

(** The check a reason is attributed to in the logs: the [CheckName] of an
    [SMTPError], the ["check"] field of a fields wrapper. *)
Definition checkOf (e : error) : option string :=
  match e with
  | SMTPErr s => Some (CheckName s)
  | fieldsErr _ fields => fields !! "check"
  | _ => None
  end.

(** ** Go's [strconv] and [strings]

    The functions of the Go library the sources call, after the library's
    code.  ([strings] is [gostrings] here, the short name being a module of
    stdpp.) *)

Module strconv.

Definition maxUint64 : Z := 2 ^ 64 - 1.

Definition digitVal (c : ascii) : option Z :=
  let n := Z.of_N (N_of_ascii c) in
  if (48 <=? n) && (n <=? 57) then Some (n - 48) else None.

(** The digit loop of [ParseUint(s, 10, 64)]: a byte that is not a digit is a
    syntax error, leaving 64 bits a range error, whichever comes first. *)
Fixpoint parseUintLoop (s : string) (n : Z) : Z * option numErr :=
  match s with
  | EmptyString => (n, None)
  | String c s' =>
      match digitVal c with
      | None => (0, Some ErrSyntax)
      | Some d =>
          if maxUint64 `quot` 10 + 1 <=? n then (maxUint64, Some ErrRange)
          else
            let n1 := n * 10 + d in
            if maxUint64 <? n1 then (maxUint64, Some ErrRange)
            else parseUintLoop s' n1
      end
  end.

Definition ParseUint (s : string) : Z * option numErr :=
  match s with
  | EmptyString => (0, Some ErrSyntax)
  | _ => parseUintLoop s 0
  end.

(** [ParseInt(s, 10, 0)] on a 64-bit platform. *)
Definition ParseInt (s : string) : Z * option numErr :=
  match s with
  | EmptyString => (0, Some ErrSyntax)
  | String c s' =>
      let neg := Ascii.eqb c "-"%char in
      let s1 := if Ascii.eqb c "+"%char || neg then s' else s in
      let cutoff := 2 ^ 63 in
      match ParseUint s1 with
      | (_, Some ErrSyntax) => (0, Some ErrSyntax)
      | (un, _) =>
          if negb neg && (cutoff <=? un) then (cutoff - 1, Some ErrRange)
          else if neg && (cutoff <? un) then (- cutoff, Some ErrRange)
          else (if neg then - un else un, None)
      end
  end.

(** [Atoi(s)]: [ParseInt(s, 10, 0)] with the error renamed (the fast path for
    short strings computes the same result). *)
Definition Atoi (s : string) : Z * option error :=
  match ParseInt s with
  | (n, None) => (n, None)
  | (n, Some e) => (n, Some (NumError "Atoi" s e))
  end.

End strconv.

Module gostrings.

(** [strings.Split(s, sep)] at a one-byte separator. *)
Fixpoint Split (s : string) (sep : ascii) : list string :=
  match s with
  | EmptyString => [EmptyString]
  | String c s' =>
      if Ascii.eqb c sep then EmptyString :: Split s' sep
      else match Split s' sep with
           | p :: ps => String c p :: ps
           | [] => [String c EmptyString]
           end
  end.

(** [len(s) >= len(prefix) && s[0:len(prefix)] == prefix] *)
Definition HasPrefix (s prefix : string) : bool :=
  (String.length prefix <=? String.length s)%nat
  && String.eqb (substring 0 (String.length prefix) s) prefix.

(** [len(s) >= len(suffix) && s[len(s)-len(suffix):] == suffix] *)
Definition HasSuffix (s suffix : string) : bool :=
  (String.length suffix <=? String.length s)%nat
  && String.eqb (substring (String.length s - String.length suffix)
                           (String.length suffix) s) suffix.

Definition TrimSuffix (s suffix : string) : string :=
  if HasSuffix s suffix
  then substring 0 (String.length s - String.length suffix) s
  else s.

End gostrings.

(** ** Package [module]: the result of a check *)

Module module.

(** Modelled from the spec: the declaration of [module.CheckResult] is not
    among the sources; a verdict is an optional reason and the two flags
    [Apply] merges. *)
Record CheckResult : Type := mkCheckResult {
  Reason : option error;
  Reject : bool;
  Quarantine : bool
}.

(** [module.CheckResult{}]: the check passed. *)
Definition zero : CheckResult :=
  {| Reason := None; Reject := false; Quarantine := false |}.

(** [module.CheckResult{Reason: r}] *)
Definition withReason (r : error) : CheckResult :=
  {| Reason := Some r; Reject := false; Quarantine := false |}.

End module.

(** ** Package [check] *)

Module check.

Record FailAction : Type := mkFailAction {
  Quarantine : bool;
  Reject : bool;
  ReasonOverride : option SMTPError
}.

(** [FailAction{}] *)
Definition zero : FailAction :=
  {| Quarantine := false; Reject := false; ReasonOverride := None |}.

(** [code[i] = num] on a [[3]int]. *)
Definition setIndex (code : EnhancedCodeT) (i : nat) (num : Z) : EnhancedCodeT :=
  let '(c0, c1, c2) := code in
  match i with
  | 0%nat => (num, c1, c2)
  | 1%nat => (c0, num, c2)
  | 2%nat => (c0, c1, num)
  | _ => code
  end.

(** The loop [for i, part := range parts] of [parseEnhancedCode], from index
    [i] on. *)
Fixpoint parseParts (parts : list string) (i : nat) (code : EnhancedCodeT)
  : EnhancedCodeT * option error :=
  match parts with
  | [] => (code, None)
  | part :: rest =>
      match strconv.Atoi part with
      | (_, Some err) => (code, Some err)
      | (num, None) => parseParts rest (S i) (setIndex code i num)
      end
  end.

Definition parseEnhancedCode (s : string) : EnhancedCodeT * option error :=
  let parts := gostrings.Split s "."%char in
  if negb (length parts =? 3)%nat
  then ((0, 0, 0), Some (Errorf "wrong amount of enhanced code parts" []))
  else parseParts parts 0 (0, 0, 0).

(** [ParseRejectDirective]: the switch on [len(args)] falls through from
    [case 3] to [case 2] to [case 1]; each case is a function that ends by
    entering the next. *)
Definition rejectResult (code : Z) (enchCode : EnhancedCodeT) (msg : string)
  : option SMTPError * option error :=
  (Some {| Code := code;
           EnhancedCode := enchCode;
           Message := msg;
           CheckName := "";
           Err := None;
           Misc := ∅;
           Reason := "reject directive used" |}, None).

Definition rejectCase1 (arg0 : string) (enchCode : EnhancedCodeT) (msg : string)
  : option SMTPError * option error :=
  match strconv.Atoi arg0 with
  | (_, Some err) => (None, Some (Errorf "invalid error code integer: %v" [err]))
  | (code, None) =>
      if negb (code `quot` 100 =? 4) && negb (code `quot` 100 =? 5)
      then (None, Some (Errorf "error code should start with either 4 or 5" []))
      else rejectResult code enchCode msg
  end.

Definition rejectCase2 (arg0 arg1 : string) (msg : string)
  : option SMTPError * option error :=
  match parseEnhancedCode arg1 with
  | (_, Some err) => (None, Some err)
  | (enchCode, None) =>
      if negb (enchCode.1.1 =? 4) && negb (enchCode.1.1 =? 5)
      then (None, Some (Errorf
              "enhanced code should use either 4 or 5 as a first number" []))
      else rejectCase1 arg0 enchCode msg
  end.

Definition rejectCase3 (arg0 arg1 arg2 : string)
  : option SMTPError * option error :=
  let msg := arg2 in
  if String.eqb msg ""
  then (None, Some (Errorf "message can't be empty" []))
  else rejectCase2 arg0 arg1 msg.

Definition ParseRejectDirective (args : list string)
  : option SMTPError * option error :=
  let code := 554 in
  let enchCode := (5, 7, 0) in
  let msg := "Message rejected due to a local policy" in
  match args with
  | [arg0; arg1; arg2] => rejectCase3 arg0 arg1 arg2
  | [arg0; arg1] => rejectCase2 arg0 arg1 msg
  | [arg0] => rejectCase1 arg0 enchCode msg
  | [] => rejectResult code enchCode msg
  | _ => (None, Some (Errorf "invalid count of arguments" []))
  end.

Definition ParseActionDirective (args : list string)
  : FailAction * option error :=
  match args with
  | [] => (zero, Some (errorString "expected at least 1 argument"))
  | arg0 :: rest =>
      let finish (res : FailAction) : FailAction * option error :=
        ({| Quarantine := String.eqb arg0 "quarantine";
            Reject := String.eqb arg0 "reject";
            ReasonOverride := ReasonOverride res |}, None) in
      if String.eqb arg0 "reject" || String.eqb arg0 "quarantine" then
        if (1 <? length args)%nat then
          match ParseRejectDirective rest with
          | (_, Some err) => (zero, Some err)
          | (override, None) =>
              finish {| Quarantine := false; Reject := false;
                        ReasonOverride := override |}
          end
        else finish zero
      else if String.eqb arg0 "ignore" then finish zero
      else (zero, Some (errorString "invalid action"))
  end.

(** [Apply] merges the result of a check with the configured action. *)
Definition Apply (cfa : FailAction) (originalRes : module.CheckResult)
  : module.CheckResult :=
  match module.Reason originalRes with
  | None => originalRes
  | Some reason =>
      let reason' :=
        match ReasonOverride cfa with
        | Some override =>
            SMTPErr {| Code := Code override;
                       EnhancedCode := EnhancedCode override;
                       Message := Message override;
                       CheckName := "";
                       Err := Some reason;
                       Misc := ∅;
                       Reason := "" |}
        | None => reason
        end in
      {| module.Reason := Some reason';
         module.Quarantine := Quarantine cfa || module.Quarantine originalRes;
         module.Reject := Reject cfa || module.Reject originalRes |}
  end.

(** Modelled from the spec: the configuration parser is not among the
    sources.  A node of the configuration tree has arguments and a block of
    child nodes; [m.MatchErr(format, args...)] builds the error the parser
    reports for the node being matched, kept here as a function of the format
    and of the errors passed as arguments. *)
Inductive Node : Type :=
  mkNode (Name : string) (Args : list string) (Children : list Node).

Definition Args (node : Node) : list string :=
  let 'mkNode _ args _ := node in args.

Definition Children (node : Node) : list Node :=
  let 'mkNode _ _ children := node in children.

Record Map : Type := mkMap { MatchErr : string -> list error -> error }.

Definition FailActionDirective (m : Map) (node : Node)
  : option FailAction * option error :=
  if negb (length (Children node) =? 0)%nat
  then (None, Some (MatchErr m "can't declare block here" []))
  else
    match ParseActionDirective (Args node) with
    | (_, Some err) => (None, Some (MatchErr m "%v" [err]))
    | (val, None) => (Some val, None)
    end.

End check.

(** ** Go's [net]: addresses *)

Module net.

(** [net.IP] is [[]byte]. *)
Definition IP : Type := list Z.

Record TCPAddr : Type := mkTCPAddr { tcpIP : IP; Port : Z; tcpZone : string }.

(** The [net.Addr] interface: nil, a [*net.TCPAddr] (taken to point to an
    address), or an address of another network (a Unix socket, say). *)
Inductive Addr : Type :=
| nilAddr
| ofTCPAddr (a : TCPAddr)
| otherAddr (network str : string).

Record MX : Type := mkMX { Host : string; Pref : Z }.

Record IPAddr : Type := mkIPAddr { ipIP : IP; ipZone : string }.

Definition v4InV6Prefix : list Z := [0; 0; 0; 0; 0; 0; 0; 0; 0; 0; 255; 255].

Fixpoint bytesEqual (a b : list Z) : bool :=
  match a, b with
  | [], [] => true
  | x :: a', y :: b' => (x =? y) && bytesEqual a' b'
  | _, _ => false
  end.

(** [IP.Equal]: an IPv4 address and the same address in IPv6 form are
    equal. *)
Definition Equal (ip x : IP) : bool :=
  if (length ip =? length x)%nat then bytesEqual ip x
  else if (length ip =? 4)%nat && (length x =? 16)%nat
  then bytesEqual (take 12 x) v4InV6Prefix && bytesEqual ip (drop 12 x)
  else if (length ip =? 16)%nat && (length x =? 4)%nat
  then bytesEqual (take 12 ip) v4InV6Prefix && bytesEqual (drop 12 ip) x
  else false.

End net.

(** ** Package [dns] *)

(** What the code takes from packages that are not among the sources. *)
Class Imports : Type := {
  (* address.Split(addr) (mailbox, domain string, err error) *)
  address_Split : string -> string * string * option error;
  (* exterrors.IsTemporary(err) *)
  IsTemporary : error -> bool;
  (* the method err.Error() *)
  Error : error -> string;
  (* strings.EqualFold(s, t) *)
  EqualFold : string -> string -> bool;
  (* net.ParseIP(s); None is the nil IP *)
  ParseIP : string -> option net.IP
}.

Module dns.

(** A value of type [interface{}]. *)
Inductive any : Type :=
| anyNil
| anyString (s : string)
| anyError (e : error).

(** Modelled from the spec: the future type is not among the sources; it is
    the lazily resolved rDNS name, and [Get] waits for the value and returns
    it, a string when the lookup gave a name. *)
Record Future : Type := mkFuture { Get : any }.

(** Modelled from the spec: the declarations of the message metadata, the
    resolver interface and the check context are not among the sources; the
    fields and methods are those the checks use. *)
Record MsgMetadata : Type := mkMsgMetadata {
  SrcRDNSName : option Future;
  SrcHostname : string;
  SrcAddr : net.Addr
}.

(** The resolver interface, as far as the checks call it. *)
Record Resolver : Type := mkResolver {
  LookupMX : string -> list net.MX * option error;
  LookupIPAddr : string -> list net.IPAddr * option error
}.

Record StatelessCheckContext : Type := mkContext {
  resolver : Resolver;
  MsgMeta : MsgMetadata
}.

(** What a check does besides returning: calls to [ctx.Logger] and lookups. *)
Inductive logArg : Type :=
| argString (s : string)
| argIP (ip : net.IP).

Inductive event : Type :=
| evLog (method format : string) (args : list logArg)
| evLookupMX (domain : string)
| evLookupIPAddr (host : string).

(** A check computes a value and leaves a trace. *)
Definition M (A : Type) : Type := (A * list event)%type.

Definition ret {A} (a : A) : M A := (a, []).

Definition bind {A B} (m : M A) (k : A -> M B) : M B :=
  let (b, t) := k m.1 in (b, (m.2 ++ t)%list).

Notation "x <- m ;; k" := (bind m (fun x => k))
  (at level 100, m at next level, right associativity).
Notation "m ;;; k" := (bind m (fun _ => k))
  (at level 100, right associativity).

Definition log (method format : string) (args : list logArg) : M unit :=
  (tt, [evLog method format args]).

Definition lookupMX (ctx : StatelessCheckContext) (domain : string)
  : M (list net.MX * option error) :=
  (LookupMX (resolver ctx) domain, [evLookupMX domain]).

Definition lookupIPAddr (ctx : StatelessCheckContext) (host : string)
  : M (list net.IPAddr * option error) :=
  (LookupIPAddr (resolver ctx) host, [evLookupIPAddr host]).

(** An [SMTPError] literal with [Code], [EnhancedCode], [Message] and
    [CheckName]. *)
Definition smtpError (code : Z) (enchCode : EnhancedCodeT)
  (message checkName : string) : SMTPError :=
  {| Code := code; EnhancedCode := enchCode; Message := message;
     CheckName := checkName; Err := None; Misc := ∅; Reason := "" |}.

Section Checks.
Context `{Imports}.

Definition requireMatchingRDNS (ctx : StatelessCheckContext)
  : M module.CheckResult :=
  match SrcRDNSName (MsgMeta ctx) with
  | None =>
      log "Msg" "rDNS lookup is disabled, skipping" [] ;;;
      ret module.zero
  | Some fut =>
      match Get fut with
      | anyString rdnsName =>
          let srcDomain := gostrings.TrimSuffix (SrcHostname (MsgMeta ctx)) "." in
          let rdnsName := gostrings.TrimSuffix rdnsName "." in
          if EqualFold rdnsName srcDomain then
            log "Debugf" "PTR record %s matches source domain, OK"
                [argString rdnsName] ;;;
            ret module.zero
          else
            ret (module.withReason (SMTPErr
                   (smtpError 550 (5, 7, 25)
                      "rDNS name does not match source hostname"
                      "require_matching_rdns")))
      | _ =>
          ret (module.withReason (SMTPErr
                 (smtpError 40 (4, 7, 25)
                    "DNS lookup failure during policy check"
                    "require_matching_rdns")))
      end
  end.

(** The reason both lookups report when the resolver fails. *)
Definition lookupFailure (err : error) (checkName : string) : SMTPError :=
  let code := 501 in
  let enchCode := (5, 7, 27) in
  let '(code, enchCode) :=
    if IsTemporary err then (420, (4, 7, 27)) else (code, enchCode) in
  {| Code := code;
     EnhancedCode := enchCode;
     Message := "DNS lookup failure during policy check";
     CheckName := checkName;
     Err := Some err;
     Misc := {[ "reason" := Error err ]};
     Reason := "" |}.

Definition requireMXRecord (ctx : StatelessCheckContext) (mailFrom : string)
  : M module.CheckResult :=
  if String.eqb mailFrom "" then ret module.zero
  else
    match address_Split mailFrom with
    | (_, _, Some err) =>
        ret (module.withReason
               (WithFields err {[ "check" := "require_matching_rdns" ]}))
    | (_, domain, None) =>
        if String.eqb domain "" then
          ret (module.withReason (SMTPErr
                 (smtpError 501 (5, 1, 8) "No domain part"
                    "require_mx_record")))
        else
          match SrcAddr (MsgMeta ctx) with
          | net.ofTCPAddr _ =>
              r <- lookupMX ctx domain ;;
              match r with
              | (_, Some err) =>
                  ret (module.withReason
                         (SMTPErr (lookupFailure err "require_mx_record")))
              | (srcMx, None) =>
                  if (length srcMx =? 0)%nat then
                    ret (module.withReason (SMTPErr
                           (smtpError 501 (5, 7, 27)
                              "Domain in MAIL FROM has no MX records"
                              "require_mx_record")))
                  else ret module.zero
              end
          | _ =>
              log "Println" "non-TCP/IP source" [] ;;;
              ret module.zero
          end
    end.

(** The loop [for _, ip := range srcIPs] of [requireMatchingEHLO]: the first
    address equal to the client's. *)
Fixpoint findIP (clientIP : net.IP) (srcIPs : list net.IPAddr)
  : option net.IPAddr :=
  match srcIPs with
  | [] => None
  | ip :: rest =>
      if net.Equal clientIP (net.ipIP ip) then Some ip
      else findIP clientIP rest
  end.

Definition requireMatchingEHLO (ctx : StatelessCheckContext)
  : M module.CheckResult :=
  match SrcAddr (MsgMeta ctx) with
  | net.ofTCPAddr tcpAddr =>
      let ehlo := SrcHostname (MsgMeta ctx) in
      if gostrings.HasPrefix ehlo "[" && gostrings.HasSuffix ehlo "]" then
        match ParseIP (substring 1 (String.length ehlo - 1 - 1) ehlo) with
        | None =>
            ret (module.withReason (SMTPErr
                   (smtpError 550 (5, 7, 0) "Malformed IP in EHLO"
                      "require_matching_ehlo")))
        | Some ehloIP =>
            if negb (net.Equal ehloIP (net.tcpIP tcpAddr)) then
              ret (module.withReason (SMTPErr
                     (smtpError 550 (5, 7, 0)
                        "IP in EHLO is not the same as actual client IP"
                        "require_matching_ehlo")))
            else ret module.zero
        end
      else
        r <- lookupIPAddr ctx ehlo ;;
        match r with
        | (_, Some err) =>
            ret (module.withReason
                   (SMTPErr (lookupFailure err "require_matching_ehlo")))
        | (srcIPs, None) =>
            match findIP (net.tcpIP tcpAddr) srcIPs with
            | Some _ =>
                log "Debugf" "A/AAA record found for %s for %s domain"
                    [argIP (net.tcpIP tcpAddr); argString ehlo] ;;;
                ret module.zero
            | None =>
                ret (module.withReason (SMTPErr
                       (smtpError 550 (5, 7, 0)
                          "No matching A/AAA records found for EHLO hostname"
                          "require_matching_ehlo")))
            end
        end
  | _ =>
      log "Printf" "non-TCP/IP source, skipped" [] ;;;
      ret module.zero
  end.

End Checks.

(** [init]: the three checks as they are registered, each under its name
    with its default action; a check is a connection check or a sender check,
    and none has a recipient or a body check. *)
Record registration `{Imports} : Type := mkRegistration {
  name : string;
  defaultFailAction : check.FailAction;
  connCheck : option (StatelessCheckContext -> M module.CheckResult);
  senderCheck :
    option (StatelessCheckContext -> string -> M module.CheckResult)
}.

Definition init `{Imports} : list registration :=
  [ {| name := "require_matching_rdns";
       defaultFailAction :=
         {| check.Quarantine := true; check.Reject := false;
            check.ReasonOverride := None |};
       connCheck := Some requireMatchingRDNS;
       senderCheck := None |};
    {| name := "require_mx_record";
       defaultFailAction :=
         {| check.Quarantine := true; check.Reject := false;
            check.ReasonOverride := None |};
       connCheck := None;
       senderCheck := Some requireMXRecord |};
    {| name := "require_matching_ehlo";
       defaultFailAction :=
         {| check.Quarantine := true; check.Reject := false;
            check.ReasonOverride := None |};
       connCheck := Some requireMatchingEHLO;
       senderCheck := None |} ].

End dns.

(** ** Vocabulary of the specification *)

(** The leading decimal digit of a non-negative integer; [fuel] bounds the
    number of digits. *)
Fixpoint leadingDigit (fuel : nat) (n : Z) : Z :=
  match fuel with
  | O => n
  | S fuel' => if n <? 10 then n else leadingDigit fuel' (n `quot` 10)
  end.

(** The first digit of an integer, sign apart. *)
Definition firstDigit (n : Z) : Z :=
  leadingDigit (Z.to_nat (Z.abs n)) (Z.abs n).

(** A reply code or an enhanced code is transient in class 4, permanent in
    class 5. *)
Definition transient (e : SMTPError) : Prop :=
  Code e `quot` 100 = 4 /\ (EnhancedCode e).1.1 = 4.

Definition permanent (e : SMTPError) : Prop :=
  Code e `quot` 100 = 5 /\ (EnhancedCode e).1.1 = 5.

(** [strings.Join(parts, sep)] at a one-byte separator. *)
Fixpoint join (sep : ascii) (parts : list string) : string :=
  match parts with
  | [] => EmptyString
  | [p] => p
  | p :: rest => p +:+ String sep (join sep rest)
  end.

(** The errors of [ParseRejectDirective] by kind. *)
Definition isArgCountErr (e : error) : Prop :=
  e = Errorf "invalid count of arguments" [].

Definition isInvalidCodeErr (e : error) : Prop :=
  e = Errorf "error code should start with either 4 or 5" []
  \/ exists err, e = Errorf "invalid error code integer: %v" [err].

(** The errors of [parseEnhancedCode]: the wrong number of parts, or a part
    that [strconv.Atoi] refuses. *)
Definition isFormatErr (e : error) : Prop :=
  e = Errorf "wrong amount of enhanced code parts" []
  \/ exists num kind, e = NumError "Atoi" num kind.

(** The arguments after the code pass the checks [ParseRejectDirective] makes
    on them before it looks at the code. *)
Definition laterArgsValid (rest : list string) : bool :=
  match rest with
  | [] => true
  | arg1 :: rest' =>
      match check.parseEnhancedCode arg1 with
      | (enchCode, None) =>
          ((enchCode.1.1 =? 4) || (enchCode.1.1 =? 5))
          && match rest' with
             | [] => true
             | [arg2] => negb (String.eqb arg2 "")
             | _ => false
             end
      | (_, Some _) => false
      end
  end.

(** The error of the checks [ParseRejectDirective] makes on the arguments
    after the code, if one of them fails: the count of the arguments, then
    the message, then the enhanced code (its parsing, then its class). *)
Definition enhancedCodeError (arg1 : string) : option error :=
  match check.parseEnhancedCode arg1 with
  | (_, Some err) => Some err
  | (enchCode, None) =>
      if (enchCode.1.1 =? 4) || (enchCode.1.1 =? 5) then None
      else Some (Errorf
                   "enhanced code should use either 4 or 5 as a first number"
                   [])
  end.

Definition laterArgsError (rest : list string) : option error :=
  match rest with
  | [] => None
  | [arg1] => enhancedCodeError arg1
  | [arg1; arg2] =>
      if String.eqb arg2 "" then Some (Errorf "message can't be empty" [])
      else enhancedCodeError arg1
  | _ => Some (Errorf "invalid count of arguments" [])
  end.

(** The resolver failed with [err] on a lookup the trace records. *)
Definition mxLookupFailed (ctx : dns.StatelessCheckContext)
  (trace : list dns.event) (err : error) : Prop :=
  exists domain srcMx,
    In (dns.evLookupMX domain) trace
    /\ dns.LookupMX (dns.resolver ctx) domain = (srcMx, Some err).

Definition ipLookupFailed (ctx : dns.StatelessCheckContext)
  (trace : list dns.event) (err : error) : Prop :=
  exists host srcIPs,
    In (dns.evLookupIPAddr host) trace
    /\ dns.LookupIPAddr (dns.resolver ctx) host = (srcIPs, Some err).

(** An MX lookup the trace records succeeded with zero records. *)
Definition mxLookupEmpty (ctx : dns.StatelessCheckContext)
  (trace : list dns.event) : Prop :=
  exists domain,
    In (dns.evLookupMX domain) trace
    /\ dns.LookupMX (dns.resolver ctx) domain = ([], None).

(** The results a registered check can give: those of its connection check
    and those of its sender check, on any context and return-path. *)
Definition resultOf `{Imports} (reg : dns.registration)
  (res : dns.M module.CheckResult) : Prop :=
  (exists f ctx, dns.connCheck reg = Some f /\ res = f ctx)
  \/ (exists f ctx mailFrom,
        dns.senderCheck reg = Some f /\ res = f ctx mailFrom).

(** Several actions applied in turn, the first of the list first. *)
Definition applyAll (actions : list check.FailAction)
  (res : module.CheckResult) : module.CheckResult :=
  fold_left (fun r cfa => check.Apply cfa r) actions res.

(** An event of the trace is a call to the logger. *)
Definition isLog (ev : dns.event) : Prop :=
  exists method format args, ev = dns.evLog method format args.

(** The decimal writing of an integer, as [strconv.Itoa] and the verb [%d]
    give it: the digits without leading zeros, after a minus sign if the
    integer is negative.  [fuel] bounds the number of digits. *)
Definition digitChar (d : Z) : ascii := ascii_of_N (Z.to_N (48 + d)).

Fixpoint digitsOf (fuel : nat) (n : Z) (acc : string) : string :=
  match fuel with
  | O => acc
  | S fuel' =>
      let acc' := String (digitChar (n `mod` 10)) acc in
      if n <? 10 then acc' else digitsOf fuel' (n `div` 10) acc'
  end.

Definition decimal (n : Z) : string :=
  if n <? 0
  then String "-"%char (digitsOf (S (Z.to_nat (- n))) (- n) EmptyString)
  else digitsOf (S (Z.to_nat n)) n EmptyString.

(** A string starts with a decimal digit. *)
Definition headDigit (s : string) : Prop :=
  match s with
  | EmptyString => False
  | String c _ => exists d, strconv.digitVal c = Some d
  end.

(** An enhanced code written as the peer sees it, "class.subject.detail". *)
Definition formatCode (code : EnhancedCodeT) : string :=
  decimal code.1.1 +:+ "." +:+ decimal code.1.2 +:+ "." +:+ decimal code.2.

(** An integer fits Go's 64-bit [int]. *)
Definition isInt (n : Z) : Prop := - 2 ^ 63 <= n <= 2 ^ 63 - 1.

(** The number of occurrences of a byte in a string. *)
Fixpoint countByte (c : ascii) (s : string) : nat :=
  match s with
  | EmptyString => 0
  | String c' s' => (if Ascii.eqb c' c then 1 else 0) + countByte c s'
  end.

(** The context of a connection, field by field. *)
Definition connection (r : dns.Resolver) (rdns : option dns.Future)
  (hostname : string) (addr : net.Addr) : dns.StatelessCheckContext :=
  {| dns.resolver := r;
     dns.MsgMeta := {| dns.SrcRDNSName := rdns;
                       dns.SrcHostname := hostname;
                       dns.SrcAddr := addr |} |}.

(** ** A sample instance of the imports

    The checks are evaluated on concrete inputs with these stand-ins: an
    address splits at its only at-sign, the error "i/o timeout" is the
    temporary one, names fold by ASCII case, and an IP literal is a dotted
    quad. *)

Module Sample.

Definition splitAt (addr : string) : string * string * option error :=
  match gostrings.Split addr "@"%char with
  | [mailbox; domain] => (mailbox, domain, None)
  | _ => ("", "", Some (errorString "address: missing at-sign"))
  end.

Definition timeout : error := errorString "i/o timeout".
Definition nxdomain : error := errorString "no such host".

Definition temporary (err : error) : bool :=
  match err with
  | errorString s => String.eqb s "i/o timeout"
  | _ => false
  end.

Definition text (err : error) : string :=
  match err with
  | errorString s => s
  | _ => ""
  end.

Definition lower (c : ascii) : ascii :=
  let n := N_of_ascii c in
  if ((65 <=? n) && (n <=? 90))%N then ascii_of_N (n + 32) else c.

Fixpoint fold (s : string) : string :=
  match s with
  | EmptyString => EmptyString
  | String c s' => String (lower c) (fold s')
  end.

Definition foldEq (s t : string) : bool := String.eqb (fold s) (fold t).

Definition parseQuad (s : string) : option net.IP :=
  match map strconv.Atoi (gostrings.Split s "."%char) with
  | [(a, None); (b, None); (c, None); (d, None)] =>
      Some (net.v4InV6Prefix ++ [a; b; c; d])%list
  | _ => None
  end.

Definition imports : Imports := {|
  address_Split := splitAt;
  IsTemporary := temporary;
  Error := text;
  EqualFold := foldEq;
  ParseIP := parseQuad
|}.

Definition client : net.Addr :=
  net.ofTCPAddr {| net.tcpIP := [192; 0; 2; 1]; net.Port := 25;
                   net.tcpZone := "" |}.

(** A resolver for which every lookup fails with [err]. *)
Definition failing (err : error) : dns.Resolver :=
  {| dns.LookupMX := fun _ => ([], Some err);
     dns.LookupIPAddr := fun _ => ([], Some err) |}.

(** A resolver that finds no record and reports no error. *)
Definition empty : dns.Resolver :=
  {| dns.LookupMX := fun _ => ([], None);
     dns.LookupIPAddr := fun _ => ([], None) |}.

(** A resolver that finds one MX record and the address of the client. *)
Definition found : dns.Resolver :=
  {| dns.LookupMX := fun _ => ([ {| net.Host := "mx.example.org";
                                    net.Pref := 10 |} ], None);
     dns.LookupIPAddr := fun _ => ([ {| net.ipIP := [192; 0; 2; 1];
                                        net.ipZone := "" |} ], None) |}.

Definition context (r : dns.Resolver) (rdns : option dns.Future)
  : dns.StatelessCheckContext :=
  {| dns.resolver := r;
     dns.MsgMeta := {| dns.SrcRDNSName := rdns;
                       dns.SrcHostname := "mail.example.com";
                       dns.SrcAddr := client |} |}.

(** A policy that quarantines and rejects, and nothing more. *)
Definition quarantineAndReject : check.FailAction :=
  {| check.Quarantine := true; check.Reject := true;
     check.ReasonOverride := None |}.

End Sample.

(** * Properties *)

(** ** Arithmetic of reply codes *)

Ltac quot_lia := Z.to_euclidean_division_equations; lia.

Lemma leadingDigit_three_digits (fuel : nat) (n : Z) :
  (3 <= fuel)%nat -> 100 <= n < 1000 -> leadingDigit fuel n = n `quot` 100.
Proof.
  intros Hfuel Hn.
  destruct fuel as [|[|[|fuel]]]; try lia.
  assert (H100 : (n `quot` 10) `quot` 10 = n `quot` 100) by quot_lia.
  cbn [leadingDigit].
  destruct (Z.ltb_spec n 10); [lia|].
  destruct (Z.ltb_spec (n `quot` 10) 10); [quot_lia|].
  rewrite H100.
  destruct (Z.ltb_spec (n `quot` 100) 10); [reflexivity | quot_lia].
Qed.

(** A code the parser lets through ([code/100] is 4 or 5) has three digits,
    the first of which is [code/100]. *)
Lemma firstDigit_quot100 (n : Z) :
  n `quot` 100 = 4 \/ n `quot` 100 = 5 -> firstDigit n = n `quot` 100.
Proof.
  intros Hq.
  assert (Hn : 400 <= n < 600) by quot_lia.
  unfold firstDigit. rewrite Z.abs_eq by lia.
  apply leadingDigit_three_digits; lia.
Qed.

(** ** Cause chains *)

(** The chain follows [Unwrap]. *)
Lemma chain_Unwrap (e : error) :
  chain e = e :: match Unwrap e with
                 | Some cause => chain cause
                 | None => []
                 end.
Proof. destruct e; reflexivity. Qed.

Lemma chain_head (e : error) : e ∈ chain e.
Proof. rewrite chain_Unwrap. apply elem_of_cons. left. reflexivity. Qed.

(** ** [Apply] *)

(** On a passing result [Apply] is the identity. *)
Lemma Apply_pass (p : check.FailAction) (v : module.CheckResult) :
  module.Reason v = None -> check.Apply p v = v.
Proof. intros Hv. unfold check.Apply. rewrite Hv. reflexivity. Qed.

(** On a failing result the flags are the disjunction of both sides. *)
Lemma Apply_fail_flags (p : check.FailAction) (v : module.CheckResult) :
  module.Reason v <> None ->
  module.Quarantine (check.Apply p v)
    = check.Quarantine p || module.Quarantine v
  /\ module.Reject (check.Apply p v) = check.Reject p || module.Reject v.
Proof.
  intros Hv. unfold check.Apply.
  destruct (module.Reason v); [split; reflexivity | congruence].
Qed.

(** C3, as stated, fails: a policy with both flags set leaves a passing result
    (no reason) as it is, flags false. *)
Lemma Apply_pass_keeps_flags_false :
  ~ ((module.Quarantine module.zero = true
      \/ check.Quarantine Sample.quarantineAndReject = true ->
      module.Quarantine (check.Apply Sample.quarantineAndReject module.zero) = true)
     /\ (module.Reject module.zero = true
         \/ check.Reject Sample.quarantineAndReject = true ->
         module.Reject (check.Apply Sample.quarantineAndReject module.zero) = true)).
Proof.
  intros [Hq _].
  specialize (Hq (or_intror eq_refl)).
  cbv in Hq. discriminate Hq.
Qed.

(** C3, amended: a flag of [p.Apply(v)] is true whenever [v] has it true, or
    [v] carries a reason and [p] has it true.  [Apply] never clears a flag of
    the result, and sets the flags of the policy on every failing result; a
    passing result (no reason) is returned unchanged. *)
Theorem Apply_monotonic_on_failure
  (p : check.FailAction) (v : module.CheckResult) :
  (module.Quarantine v = true
   \/ (module.Reason v <> None /\ check.Quarantine p = true) ->
   module.Quarantine (check.Apply p v) = true)
  /\ (module.Reject v = true
      \/ (module.Reason v <> None /\ check.Reject p = true) ->
      module.Reject (check.Apply p v) = true)
  /\ (module.Reason v = None -> check.Apply p v = v).
Proof.
  destruct (module.Reason v) as [r|] eqn:Hr.
  - destruct (Apply_fail_flags p v) as [Hq Hj]; [congruence|].
    rewrite Hq, Hj.
    split; [|split]; try discriminate;
      intros [Hv|[_ Hp]]; rewrite ?Hv, ?Hp;
      auto using orb_true_r, orb_true_l.
  - rewrite Apply_pass by assumption.
    split; [|split]; try reflexivity;
      intros [Hv|[Hne _]]; auto; congruence.
Qed.

Lemma Apply_monotonic_on_failure_witness :
  let v := module.withReason (errorString "no MX") in
  module.Quarantine (check.Apply Sample.quarantineAndReject v) = true
  /\ module.Reject (check.Apply Sample.quarantineAndReject v) = true
  /\ check.Apply Sample.quarantineAndReject module.zero = module.zero.
Proof.
  intros v.
  destruct (Apply_monotonic_on_failure Sample.quarantineAndReject v)
    as (Hq & Hj & _).
  destruct (Apply_monotonic_on_failure Sample.quarantineAndReject module.zero)
    as (_ & _ & Hpass).
  split; [|split].
  - apply Hq. right. split; [discriminate | reflexivity].
  - apply Hj. right. split; [discriminate | reflexivity].
  - apply Hpass. reflexivity.
Defined.

(** C4: with an override set, the reason of a failing result becomes an
    [SMTPError] with the override's code, enhanced code and message whose
    cause is the original reason: the new cause chain is the new error
    followed by the whole chain of the original, so unwrapping reaches the
    original reason unchanged. *)
Theorem Apply_wraps_reason
  (p : check.FailAction) (v : module.CheckResult)
  (override : SMTPError) (reason : error) :
  check.ReasonOverride p = Some override ->
  module.Reason v = Some reason ->
  exists e : SMTPError,
    module.Reason (check.Apply p v) = Some (SMTPErr e)
    /\ Code e = Code override
    /\ EnhancedCode e = EnhancedCode override
    /\ Message e = Message override
    /\ Unwrap (SMTPErr e) = Some reason
    /\ chain (SMTPErr e) = SMTPErr e :: chain reason
    /\ reason ∈ chain (SMTPErr e).
Proof.
  intros Ho Hr. unfold check.Apply. rewrite Hr, Ho.
  eexists. split; [reflexivity|]. cbn.
  repeat split.
  apply elem_of_cons. right. apply chain_head.
Qed.

Lemma Apply_wraps_reason_witness :
  let override : SMTPError :=
    {| Code := 550; EnhancedCode := (5, 7, 1); Message := "go away";
       CheckName := ""; Err := None; Misc := ∅;
       Reason := "reject directive used" |} in
  let p := {| check.Quarantine := false; check.Reject := true;
              check.ReasonOverride := Some override |} in
  let reason := SMTPErr (dns.smtpError 501 (5, 7, 27)
                  "Domain in MAIL FROM has no MX records"
                  "require_mx_record") in
  exists e : SMTPError,
    module.Reason (check.Apply p (module.withReason reason))
      = Some (SMTPErr e)
    /\ Code e = 550
    /\ EnhancedCode e = (5, 7, 1)
    /\ Message e = "go away"
    /\ Unwrap (SMTPErr e) = Some reason
    /\ chain (SMTPErr e) = SMTPErr e :: chain reason
    /\ reason ∈ chain (SMTPErr e).
Proof.
  intros override p reason.
  exact (Apply_wraps_reason p (module.withReason reason) override reason
           eq_refl eq_refl).
Defined.

(** ** [ParseActionDirective] *)

(** C10: after "ignore" the arguments are not looked at; the result is the
    action with both flags false and no override, with no error. *)
Theorem ParseActionDirective_ignore (rest : list string) :
  check.ParseActionDirective ("ignore" :: rest)
  = ({| check.Quarantine := false; check.Reject := false;
        check.ReasonOverride := None |}, None).
Proof. reflexivity. Qed.

(** ** [parseEnhancedCode] *)

(** [strings.Split] cuts at every separator: joining the parts with it gives
    the string back. *)
Lemma Split_nonempty (s : string) (sep : ascii) : gostrings.Split s sep <> [].
Proof.
  destruct s as [|c s]; cbn; [discriminate|].
  destruct (Ascii.eqb c sep); [discriminate|].
  destruct (gostrings.Split s sep); discriminate.
Qed.

Lemma Split_join (s : string) (sep : ascii) :
  join sep (gostrings.Split s sep) = s.
Proof.
  induction s as [|c s IH]; [reflexivity|].
  cbn [gostrings.Split].
  pose proof (Split_nonempty s sep) as Hn.
  destruct (gostrings.Split s sep) as [|p ps]; [congruence|].
  destruct (Ascii.eqb_spec c sep) as [->|Hne].
  - change (join sep (EmptyString :: p :: ps))
      with (String sep (join sep (p :: ps))).
    rewrite IH. reflexivity.
  - destruct ps as [|q qs].
    + cbn in IH |- *. rewrite IH. reflexivity.
    + change (join sep (String c p :: q :: qs))
        with (String c (join sep (p :: q :: qs))).
      rewrite IH. reflexivity.
Qed.

(** The three-part loop, unrolled. *)
Lemma parseParts_three (p0 p1 p2 : string) :
  check.parseParts [p0; p1; p2] 0 (0, 0, 0)
  = match strconv.Atoi p0 with
    | (_, Some err) => ((0, 0, 0), Some err)
    | (n0, None) =>
        match strconv.Atoi p1 with
        | (_, Some err) => ((n0, 0, 0), Some err)
        | (n1, None) =>
            match strconv.Atoi p2 with
            | (_, Some err) => ((n0, n1, 0), Some err)
            | (n2, None) => ((n0, n1, n2), None)
            end
        end
    end.
Proof.
  cbn [check.parseParts].
  destruct (strconv.Atoi p0) as [n0 [e0|]]; [reflexivity|].
  destruct (strconv.Atoi p1) as [n1 [e1|]]; [reflexivity|].
  destruct (strconv.Atoi p2) as [n2 [e2|]]; reflexivity.
Qed.

Lemma Atoi_error (s : string) (n : Z) (e : error) :
  strconv.Atoi s = (n, Some e) -> exists kind, e = NumError "Atoi" s kind.
Proof.
  unfold strconv.Atoi.
  destruct (strconv.ParseInt s) as [m [k|]]; intros Heq; inversion Heq.
  eauto.
Qed.

(** C7, as stated, fails: a part may be negative. *)
Lemma parseEnhancedCode_accepts_negative :
  check.parseEnhancedCode "5.-7.1" = ((5, -7, 1), None).
Proof. reflexivity. Qed.

(** C7, amended: [parseEnhancedCode s] succeeds exactly when [s] splits on "."
    into exactly 3 parts and [strconv.Atoi] accepts each part, an integer with
    an optional sign; it then returns the three integers.  In every other
    case it fails with a format error. *)
Theorem parseEnhancedCode_three_integers (s : string) :
  (forall c : EnhancedCodeT,
     check.parseEnhancedCode s = (c, None)
     <-> exists p0 p1 p2,
           gostrings.Split s "." = [p0; p1; p2]
           /\ strconv.Atoi p0 = (c.1.1, None)
           /\ strconv.Atoi p1 = (c.1.2, None)
           /\ strconv.Atoi p2 = (c.2, None))
  /\ (forall c e,
        check.parseEnhancedCode s = (c, Some e) -> isFormatErr e).
Proof.
  unfold check.parseEnhancedCode.
  destruct (gostrings.Split s ".") as [|p0 [|p1 [|p2 [|p3 ps]]]] eqn:Hs;
    cbn [length Nat.eqb negb];
    try (split;
         [ intros c; split;
           [ discriminate
           | intros (q0 & q1 & q2 & Hq & _); discriminate Hq ]
         | intros c e Heq; inversion Heq; left; reflexivity ]).
  rewrite parseParts_three.
  destruct (strconv.Atoi p0) as [n0 [e0|]] eqn:H0;
    [|destruct (strconv.Atoi p1) as [n1 [e1|]] eqn:H1;
      [|destruct (strconv.Atoi p2) as [n2 [e2|]] eqn:H2]].
  all: split;
    [ intros c; split;
      [ intros Heq; inversion Heq; subst; eauto 10
      | intros (q0 & q1 & q2 & Hq & Hq0 & Hq1 & Hq2);
        inversion Hq; subst; destruct c as [[c0 c1] c2]; cbn [fst snd] in *;
        try (rewrite Hq0 in H0; discriminate H0);
        try (rewrite Hq1 in H1; discriminate H1);
        try (rewrite Hq2 in H2; discriminate H2);
        rewrite Hq0 in H0; rewrite Hq1 in H1; rewrite Hq2 in H2;
        inversion H0; inversion H1; inversion H2; reflexivity ]
    | intros c e Heq; inversion Heq; subst; right ].
  - apply Atoi_error in H0. destruct H0; eauto.
  - apply Atoi_error in H1. destruct H1; eauto.
  - apply Atoi_error in H2. destruct H2; eauto.
Qed.

Lemma parseEnhancedCode_three_integers_witness :
  check.parseEnhancedCode "5.7.1" = ((5, 7, 1), None)
  /\ isFormatErr (Errorf "wrong amount of enhanced code parts" [])
  /\ isFormatErr (NumError "Atoi" "a" ErrSyntax).
Proof.
  split; [|split].
  - apply (proj1 (parseEnhancedCode_three_integers "5.7.1")).
    exists "5", "7", "1". repeat split; reflexivity.
  - apply (proj2 (parseEnhancedCode_three_integers "5.7") (0, 0, 0)).
    reflexivity.
  - apply (proj2 (parseEnhancedCode_three_integers "a.b.c") (0, 0, 0)).
    reflexivity.
Defined.

(** ** [ParseRejectDirective] *)

(** What [case 1] returns when it returns without error. *)
Lemma rejectCase1_ok (arg0 : string) (enchCode : EnhancedCodeT)
  (msg : string) (r : option SMTPError) :
  check.rejectCase1 arg0 enchCode msg = (r, None) ->
  exists code,
    r = Some {| Code := code; EnhancedCode := enchCode; Message := msg;
                CheckName := ""; Err := None; Misc := ∅;
                Reason := "reject directive used" |}
    /\ strconv.Atoi arg0 = (code, None)
    /\ (code `quot` 100 = 4 \/ code `quot` 100 = 5).
Proof.
  unfold check.rejectCase1.
  destruct (strconv.Atoi arg0) as [code [err|]]; [discriminate|].
  destruct (Z.eqb_spec (code `quot` 100) 4) as [H4|H4];
    destruct (Z.eqb_spec (code `quot` 100) 5) as [H5|H5];
    cbn [negb andb]; try discriminate;
    unfold check.rejectResult; intros Heq; inversion Heq; eauto.
Qed.

Lemma rejectCase2_ok (arg0 arg1 msg : string) (r : option SMTPError) :
  check.rejectCase2 arg0 arg1 msg = (r, None) ->
  exists enchCode,
    check.parseEnhancedCode arg1 = (enchCode, None)
    /\ (enchCode.1.1 = 4 \/ enchCode.1.1 = 5)
    /\ check.rejectCase1 arg0 enchCode msg = (r, None).
Proof.
  unfold check.rejectCase2.
  destruct (check.parseEnhancedCode arg1) as [enchCode [err|]];
    [discriminate|].
  destruct (Z.eqb_spec (enchCode.1.1) 4) as [H4|H4];
    destruct (Z.eqb_spec (enchCode.1.1) 5) as [H5|H5];
    cbn [negb andb]; try discriminate; eauto.
Qed.

Lemma rejectCase3_ok (arg0 arg1 arg2 : string) (r : option SMTPError) :
  check.rejectCase3 arg0 arg1 arg2 = (r, None) ->
  arg2 <> "" /\ check.rejectCase2 arg0 arg1 arg2 = (r, None).
Proof.
  unfold check.rejectCase3.
  destruct (String.eqb_spec arg2 ""); [discriminate | auto].
Qed.

(** Every return of [ParseRejectDirective] has an error or a value, never
    both and never neither. *)
Lemma ParseRejectDirective_result (args : list string) :
  (exists e, check.ParseRejectDirective args = (None, Some e))
  \/ (exists s, check.ParseRejectDirective args = (Some s, None)).
Proof.
  unfold check.ParseRejectDirective, check.rejectCase3, check.rejectCase2,
    check.rejectCase1, check.rejectResult.
  destruct args as [|a0 [|a1 [|a2 [|a3 rest]]]]; eauto.
  - destruct (strconv.Atoi a0) as [c [e|]]; eauto.
    destruct (_ && _); eauto.
  - destruct (check.parseEnhancedCode a1) as [ec [e|]]; eauto.
    destruct (_ && _); eauto.
    destruct (strconv.Atoi a0) as [c [e|]]; eauto.
    destruct (_ && _); eauto.
  - destruct (String.eqb a2 ""); eauto.
    destruct (check.parseEnhancedCode a1) as [ec [e|]]; eauto.
    destruct (_ && _); eauto.
    destruct (strconv.Atoi a0) as [c [e|]]; eauto.
    destruct (_ && _); eauto.
Qed.

(** [case 1] on a first argument that is not an integer starting with 4 or
    5. *)
Lemma rejectCase1_invalid (arg0 : string) (enchCode : EnhancedCodeT)
  (msg : string) :
  (forall n, strconv.Atoi arg0 = (n, None) ->
             firstDigit n <> 4 /\ firstDigit n <> 5) ->
  exists e, check.rejectCase1 arg0 enchCode msg = (None, Some e)
            /\ isInvalidCodeErr e.
Proof.
  intros Hdigit. unfold check.rejectCase1.
  destruct (strconv.Atoi arg0) as [code [err|]].
  - eexists. split; [reflexivity|]. right. eauto.
  - destruct (Hdigit code eq_refl) as [Hn4 Hn5].
    assert (Hq : ~ (code `quot` 100 = 4 \/ code `quot` 100 = 5)).
    { intros Hq. pose proof (firstDigit_quot100 code Hq) as Hf.
      destruct Hq; congruence. }
    destruct (Z.eqb_spec (code `quot` 100) 4) as [H4|H4]; [tauto|].
    destruct (Z.eqb_spec (code `quot` 100) 5) as [H5|H5]; [tauto|].
    cbn [negb andb]. eexists. split; [reflexivity|]. left. reflexivity.
Qed.

(** C5, as stated, fails: with a second argument that is no enhanced code the
    parser reports that argument, not the code, although the code 250 starts
    with neither 4 nor 5. *)
Lemma ParseRejectDirective_reports_later_argument_first :
  strconv.Atoi "250" = (250, None)
  /\ firstDigit 250 = 2
  /\ check.ParseRejectDirective ["250"; "x"]
     = (None, Some (Errorf "wrong amount of enhanced code parts" []))
  /\ ~ isInvalidCodeErr (Errorf "wrong amount of enhanced code parts" []).
Proof.
  repeat split.
  intros [H|[err H]]; discriminate H.
Qed.

(** C5, amended: with no argument [ParseRejectDirective] returns code 554,
    enhanced code 5.7.0 and the default message; with more than 3 arguments it
    fails with the argument-count error; and with a first argument that is
    not an integer starting with 4 or 5 it fails, with the invalid-code error
    when that argument stands alone or the arguments after it pass their own
    checks, and otherwise with the error of the later argument, which is
    checked first: the argument-count error, else the empty-message error,
    else the error of the enhanced code. *)
Theorem ParseRejectDirective_defaults_and_failures :
  check.ParseRejectDirective []
  = (Some {| Code := 554; EnhancedCode := (5, 7, 0);
             Message := "Message rejected due to a local policy";
             CheckName := ""; Err := None; Misc := ∅;
             Reason := "reject directive used" |}, None)
  /\ (forall args : list string,
        (3 < length args)%nat ->
        exists e, check.ParseRejectDirective args = (None, Some e)
                  /\ isArgCountErr e)
  /\ (forall (arg0 : string) (rest : list string),
        (forall n, strconv.Atoi arg0 = (n, None) ->
                   firstDigit n <> 4 /\ firstDigit n <> 5) ->
        exists e, check.ParseRejectDirective (arg0 :: rest) = (None, Some e)
                  /\ (laterArgsValid rest = true -> isInvalidCodeErr e)
                  /\ (laterArgsValid rest = false ->
                      laterArgsError rest = Some e)).
Proof.
  split; [reflexivity|]. split.
  - intros args Hlen.
    destruct args as [|a0 [|a1 [|a2 [|a3 rest]]]]; cbn in Hlen; try lia.
    eexists. split; reflexivity.
  - intros arg0 rest Hdigit.
    destruct rest as [|a1 [|a2 [|a3 rest]]];
      cbn [check.ParseRejectDirective laterArgsValid laterArgsError].
    + destruct (rejectCase1_invalid arg0 (5, 7, 0)
                  "Message rejected due to a local policy" Hdigit)
        as (e & He & Hk).
      exists e. split; [exact He|]. split; [auto | discriminate].
    + unfold check.rejectCase2, enhancedCodeError.
      destruct (check.parseEnhancedCode a1) as [ec [err|]].
      * eexists. split; [reflexivity|]. split; [discriminate | reflexivity].
      * destruct (Z.eqb_spec (ec.1.1) 4) as [H4|H4];
          destruct (Z.eqb_spec (ec.1.1) 5) as [H5|H5]; cbn [negb andb orb];
          try (destruct (rejectCase1_invalid arg0 ec
                 "Message rejected due to a local policy" Hdigit)
                 as (e & He & Hk);
               exists e; split; [exact He|]; split; [auto | discriminate]).
        eexists. split; [reflexivity|]. split; [discriminate | reflexivity].
    + unfold check.rejectCase3, check.rejectCase2, enhancedCodeError.
      destruct (String.eqb a2 "") eqn:Hmsg.
      * eexists. split; [reflexivity|]. split; [|reflexivity].
        destruct (check.parseEnhancedCode a1) as [ec [err|]];
          [discriminate|].
        rewrite andb_false_r. discriminate.
      * destruct (check.parseEnhancedCode a1) as [ec [err|]].
        { eexists. split; [reflexivity|].
          split; [discriminate | reflexivity]. }
        destruct (Z.eqb_spec (ec.1.1) 4) as [H4|H4];
          destruct (Z.eqb_spec (ec.1.1) 5) as [H5|H5]; cbn [negb andb orb];
          try (destruct (rejectCase1_invalid arg0 ec a2 Hdigit)
                 as (e & He & Hk);
               exists e; split; [exact He|]; split; [auto | discriminate]).
        eexists. split; [reflexivity|]. split; [discriminate | reflexivity].
    + eexists. split; [reflexivity|]. split; [|reflexivity].
      destruct (check.parseEnhancedCode a1) as [ec [err|]];
        [discriminate|].
      rewrite andb_false_r. discriminate.
Qed.

Lemma ParseRejectDirective_defaults_and_failures_witness :
  (exists e, check.ParseRejectDirective ["450"; "4.7.0"; "later"; "x"]
             = (None, Some e) /\ isArgCountErr e)
  /\ (exists e, check.ParseRejectDirective ["250"] = (None, Some e)
                /\ (laterArgsValid [] = true -> isInvalidCodeErr e)
                /\ (laterArgsValid [] = false -> laterArgsError [] = Some e))
  /\ (exists e, check.ParseRejectDirective ["250"; "x"] = (None, Some e)
                /\ (laterArgsValid ["x"] = true -> isInvalidCodeErr e)
                /\ (laterArgsValid ["x"] = false ->
                    laterArgsError ["x"] = Some e)).
Proof.
  destruct ParseRejectDirective_defaults_and_failures as (_ & Hcount & Hcode).
  assert (H250 : forall n, strconv.Atoi "250" = (n, None) ->
                           firstDigit n <> 4 /\ firstDigit n <> 5).
  { intros n Hn. vm_compute in Hn. inversion Hn; subst.
    vm_compute. split; discriminate. }
  split; [|split].
  - apply Hcount. cbn. lia.
  - apply Hcode. exact H250.
  - apply Hcode. exact H250.
Defined.

(** C6, as stated, fails: a transient code alone keeps the default enhanced
    code of class 5. *)
Lemma ParseRejectDirective_code_450_class_5 :
  exists s, check.ParseRejectDirective ["450"] = (Some s, None)
            /\ firstDigit (Code s) = 4
            /\ (EnhancedCode s).1.1 = 5
            /\ (EnhancedCode s).1.1 <> firstDigit (Code s).
Proof. eexists. repeat split. discriminate. Qed.

(** C6, amended: whenever [ParseRejectDirective] succeeds, the first digit of
    the code it returns is 4 or 5 and so is the class of the enhanced code it
    returns; each is validated on its own, the two are not compared. *)
Theorem ParseRejectDirective_code_and_class_4_or_5 (args : list string) :
  snd (check.ParseRejectDirective args) = None ->
  exists s,
    fst (check.ParseRejectDirective args) = Some s
    /\ firstDigit (Code s) = Code s `quot` 100
    /\ (firstDigit (Code s) = 4 \/ firstDigit (Code s) = 5)
    /\ ((EnhancedCode s).1.1 = 4 \/ (EnhancedCode s).1.1 = 5).
Proof.
  intros Hok.
  destruct (check.ParseRejectDirective args) as [r e] eqn:Hr.
  cbn in Hok. subst e. cbn [fst].
  assert (Hgoal : exists code ec msg,
             r = Some {| Code := code; EnhancedCode := ec; Message := msg;
                         CheckName := ""; Err := None; Misc := ∅;
                         Reason := "reject directive used" |}
             /\ (code `quot` 100 = 4 \/ code `quot` 100 = 5)
             /\ (ec.1.1 = 4 \/ ec.1.1 = 5)).
  { unfold check.ParseRejectDirective in Hr.
    destruct args as [|a0 [|a1 [|a2 [|a3 rest]]]].
    - inversion Hr. exists 554, (5, 7, 0). eexists.
      split; [reflexivity|]. split; [right|right]; reflexivity.
    - apply rejectCase1_ok in Hr. destruct Hr as (code & -> & _ & Hc).
      exists code, (5, 7, 0). eexists.
      split; [reflexivity|]. split; [assumption | right; reflexivity].
    - apply rejectCase2_ok in Hr. destruct Hr as (ec & _ & Hec & Hr).
      apply rejectCase1_ok in Hr. destruct Hr as (code & -> & _ & Hc).
      exists code, ec. eexists. split; [reflexivity|]. auto.
    - apply rejectCase3_ok in Hr. destruct Hr as (_ & Hr).
      apply rejectCase2_ok in Hr. destruct Hr as (ec & _ & Hec & Hr).
      apply rejectCase1_ok in Hr. destruct Hr as (code & -> & _ & Hc).
      exists code, ec. eexists. split; [reflexivity|]. auto.
    - discriminate Hr. }
  destruct Hgoal as (code & ec & msg & -> & Hc & Hec).
  eexists. split; [reflexivity|]. cbn [Code EnhancedCode].
  rewrite (firstDigit_quot100 code Hc). auto.
Qed.

Lemma ParseRejectDirective_code_and_class_4_or_5_witness :
  exists s,
    fst (check.ParseRejectDirective ["450"; "4.7.1"; "try again later"])
      = Some s
    /\ firstDigit (Code s) = Code s `quot` 100
    /\ (firstDigit (Code s) = 4 \/ firstDigit (Code s) = 5)
    /\ ((EnhancedCode s).1.1 = 4 \/ (EnhancedCode s).1.1 = 5).
Proof.
  apply (ParseRejectDirective_code_and_class_4_or_5
           ["450"; "4.7.1"; "try again later"]).
  reflexivity.
Defined.

(** ** The DNS checks *)

(** A trace that holds no lookup of the kind looked for. *)
Ltac no_lookup_in Hin :=
  repeat match type of Hin with
         | _ \/ _ => destruct Hin as [Hin|Hin]; [discriminate Hin|]
         | False => destruct Hin
         end.

Ltac no_lookup :=
  solve [cbn; let Hin := fresh "Hin" in intros Hin; no_lookup_in Hin].

Section DNSChecks.
Context `{Imports}.

Lemma lookupFailure_fields (err : error) (checkName : string) :
  let e := dns.lookupFailure err checkName in
  Message e = "DNS lookup failure during policy check"
  /\ CheckName e = checkName
  /\ Err e = Some err
  /\ Misc e !! "reason" = Some (Error err)
  /\ (IsTemporary err = true -> Code e = 420 /\ EnhancedCode e = (4, 7, 27))
  /\ (IsTemporary err = false -> Code e = 501 /\ EnhancedCode e = (5, 7, 27)).
Proof.
  unfold dns.lookupFailure.
  destruct (IsTemporary err); cbn; repeat split; try discriminate;
    apply lookup_singleton_eq.
Qed.

(** [requireMXRecord] once it gets to the lookup: the result is decided by
    what the resolver returns, and the lookup is all the trace holds. *)
Lemma requireMXRecord_lookup (ctx : dns.StatelessCheckContext)
  (mailFrom mailbox domain : string) (a : net.TCPAddr) :
  mailFrom <> "" ->
  address_Split mailFrom = (mailbox, domain, None) ->
  domain <> "" ->
  dns.SrcAddr (dns.MsgMeta ctx) = net.ofTCPAddr a ->
  dns.requireMXRecord ctx mailFrom
  = (match dns.LookupMX (dns.resolver ctx) domain with
     | (_, Some err) =>
         module.withReason
           (SMTPErr (dns.lookupFailure err "require_mx_record"))
     | (srcMx, None) =>
         if (length srcMx =? 0)%nat
         then module.withReason (SMTPErr
                (dns.smtpError 501 (5, 7, 27)
                   "Domain in MAIL FROM has no MX records"
                   "require_mx_record"))
         else module.zero
     end, [dns.evLookupMX domain]).
Proof.
  intros Hfrom Hsplit Hdomain Haddr. unfold dns.requireMXRecord.
  destruct (String.eqb_spec mailFrom ""); [contradiction|].
  rewrite Hsplit.
  destruct (String.eqb_spec domain ""); [contradiction|].
  rewrite Haddr. unfold dns.bind, dns.lookupMX. cbn [fst snd].
  destruct (dns.LookupMX (dns.resolver ctx) domain) as [srcMx [err|]];
    [reflexivity|].
  destruct (length srcMx =? 0)%nat; reflexivity.
Qed.

(** A lookup in the trace of [requireMXRecord] means the check got there. *)
Lemma requireMXRecord_trace (ctx : dns.StatelessCheckContext)
  (mailFrom domain : string) :
  In (dns.evLookupMX domain) (dns.requireMXRecord ctx mailFrom).2 ->
  exists mailbox a,
    mailFrom <> ""
    /\ address_Split mailFrom = (mailbox, domain, None)
    /\ domain <> ""
    /\ dns.SrcAddr (dns.MsgMeta ctx) = net.ofTCPAddr a.
Proof.
  unfold dns.requireMXRecord.
  destruct (String.eqb_spec mailFrom "") as [|Hfrom]; [no_lookup|].
  destruct (address_Split mailFrom) as [[mailbox d] [err|]] eqn:Hsplit;
    [no_lookup|].
  destruct (String.eqb_spec d "") as [|Hd]; [no_lookup|].
  destruct (dns.SrcAddr (dns.MsgMeta ctx)) as [|a|network str] eqn:Haddr;
    try no_lookup.
  unfold dns.bind, dns.lookupMX. cbn [fst snd].
  destruct (dns.LookupMX (dns.resolver ctx) d) as [srcMx [err|]];
    [|destruct (length srcMx =? 0)%nat];
    cbn; intros [Hev|[]]; inversion Hev; subst; eauto 10.
Qed.

(** The same two facts for [requireMatchingEHLO]. *)
Lemma requireMatchingEHLO_trace (ctx : dns.StatelessCheckContext)
  (host : string) :
  In (dns.evLookupIPAddr host) (dns.requireMatchingEHLO ctx).2 ->
  host = dns.SrcHostname (dns.MsgMeta ctx)
  /\ exists a,
       dns.SrcAddr (dns.MsgMeta ctx) = net.ofTCPAddr a
       /\ gostrings.HasPrefix host "[" && gostrings.HasSuffix host "]" = false.
Proof.
  unfold dns.requireMatchingEHLO.
  destruct (dns.SrcAddr (dns.MsgMeta ctx)) as [|a|network str] eqn:Haddr;
    try no_lookup.
  destruct (gostrings.HasPrefix _ "[" && gostrings.HasSuffix _ "]") eqn:Hlit.
  - destruct (ParseIP _) as [ehloIP|]; [|no_lookup].
    destruct (negb _); no_lookup.
  - unfold dns.bind, dns.lookupIPAddr. cbn [fst snd].
    destruct (dns.LookupIPAddr _ _) as [srcIPs [err|]];
      [|destruct (dns.findIP _ srcIPs)];
      cbn; intros [Hev|Hin]; try (inversion Hev; subst; eauto);
      no_lookup_in Hin.
Qed.

Lemma requireMatchingEHLO_lookup_error (ctx : dns.StatelessCheckContext)
  (a : net.TCPAddr) (srcIPs : list net.IPAddr) (err : error) :
  dns.SrcAddr (dns.MsgMeta ctx) = net.ofTCPAddr a ->
  gostrings.HasPrefix (dns.SrcHostname (dns.MsgMeta ctx)) "["
    && gostrings.HasSuffix (dns.SrcHostname (dns.MsgMeta ctx)) "]" = false ->
  dns.LookupIPAddr (dns.resolver ctx) (dns.SrcHostname (dns.MsgMeta ctx))
    = (srcIPs, Some err) ->
  dns.requireMatchingEHLO ctx
  = (module.withReason
       (SMTPErr (dns.lookupFailure err "require_matching_ehlo")),
     [dns.evLookupIPAddr (dns.SrcHostname (dns.MsgMeta ctx))]).
Proof.
  intros Haddr Hlit Hlookup. unfold dns.requireMatchingEHLO.
  rewrite Haddr, Hlit. unfold dns.bind, dns.lookupIPAddr. cbn [fst snd].
  rewrite Hlookup. reflexivity.
Qed.

(** Every failure of [requireMXRecord] past the parsing of the address is
    attributed to the check by name. *)
Lemma requireMXRecord_failures_named (ctx : dns.StatelessCheckContext)
  (mailFrom : string) (r : error) :
  (address_Split mailFrom).2 = None ->
  module.Reason (dns.requireMXRecord ctx mailFrom).1 = Some r ->
  checkOf r = Some "require_mx_record".
Proof.
  unfold dns.requireMXRecord.
  destruct (String.eqb mailFrom ""); [discriminate 2|].
  destruct (address_Split mailFrom) as [[mailbox d] [err|]];
    [discriminate 1|intros _].
  destruct (String.eqb d "");
    [cbn; intros Hr; inversion Hr; reflexivity|].
  destruct (dns.SrcAddr (dns.MsgMeta ctx)); try discriminate 1.
  unfold dns.bind, dns.lookupMX. cbn [fst snd].
  destruct (dns.LookupMX (dns.resolver ctx) d) as [srcMx [err|]].
  - cbn. intros Hr. inversion Hr. cbn.
    f_equal. apply (lookupFailure_fields err "require_mx_record").
  - destruct (length srcMx =? 0)%nat; cbn; intros Hr; inversion Hr.
    reflexivity.
Qed.

(** C1: when the rDNS lookup was attempted and its result is not a string,
    [requireMatchingRDNS] fails with enhanced code 4.7.25 and the reply code
    40.  The enhanced code is of the transient class, but 40 has two digits,
    not three, and [40/100] is 0, not 4. *)
Theorem requireMatchingRDNS_failed_lookup_code_40
  (ctx : dns.StatelessCheckContext) (fut : dns.Future) :
  dns.SrcRDNSName (dns.MsgMeta ctx) = Some fut ->
  (forall s, dns.Get fut <> dns.anyString s) ->
  exists e : SMTPError,
    dns.requireMatchingRDNS ctx = (module.withReason (SMTPErr e), [])
    /\ Code e = 40
    /\ EnhancedCode e = (4, 7, 25)
    /\ CheckName e = "require_matching_rdns"
    /\ Code e `quot` 100 = 0
    /\ ~ (100 <= Code e <= 999)
    /\ ~ transient e.
Proof.
  intros Hfut Hget. unfold dns.requireMatchingRDNS. rewrite Hfut.
  destruct (dns.Get fut) as [|s|e];
    try (exfalso; eapply Hget; reflexivity);
    (eexists; split; [reflexivity|]; cbn; repeat split;
     [ intros [Hlo _]; lia
     | intros [Hc _]; discriminate Hc ]).
Qed.

(** C2: when the resolver returns an error to the MX check or to the EHLO
    check, the reason wraps that error; if the error is temporary the reason
    is transient, code 420 and enhanced code 4.7.27, never a 5xx code; if not,
    the reason is permanent, code 501 and enhanced code 5.7.27. *)
Theorem resolver_error_classification
  (ctx : dns.StatelessCheckContext) (mailFrom : string) (err : error)
  (run : dns.M module.CheckResult) :
  (run = dns.requireMXRecord ctx mailFrom /\ mxLookupFailed ctx run.2 err)
  \/ (run = dns.requireMatchingEHLO ctx /\ ipLookupFailed ctx run.2 err) ->
  exists e : SMTPError,
    module.Reason run.1 = Some (SMTPErr e)
    /\ Err e = Some err
    /\ (IsTemporary err = true ->
        Code e = 420 /\ EnhancedCode e = (4, 7, 27)
        /\ transient e /\ Code e `quot` 100 <> 5)
    /\ (IsTemporary err = false ->
        Code e = 501 /\ EnhancedCode e = (5, 7, 27) /\ permanent e).
Proof.
  assert (Hclass : forall checkName,
            let e := dns.lookupFailure err checkName in
            Err e = Some err
            /\ (IsTemporary err = true ->
                Code e = 420 /\ EnhancedCode e = (4, 7, 27)
                /\ transient e /\ Code e `quot` 100 <> 5)
            /\ (IsTemporary err = false ->
                Code e = 501 /\ EnhancedCode e = (5, 7, 27) /\ permanent e)).
  { intros checkName e.
    destruct (lookupFailure_fields err checkName)
      as (_ & _ & Herr & _ & Htemp & Hperm).
    fold e in Herr, Htemp, Hperm. unfold transient, permanent.
    split; [assumption|].
    split; intros Ht;
      [destruct (Htemp Ht) as [-> ->] | destruct (Hperm Ht) as [-> ->]];
      repeat split; discriminate. }
  intros [[-> (domain & srcMx & Hin & Hlookup)]
         |[-> (host & srcIPs & Hin & Hlookup)]].
  - apply requireMXRecord_trace in Hin.
    destruct Hin as (mailbox & a & Hfrom & Hsplit & Hdomain & Haddr).
    rewrite (requireMXRecord_lookup ctx mailFrom mailbox domain a)
      by assumption.
    rewrite Hlookup. cbn [fst module.Reason module.withReason].
    eexists. split; [reflexivity|]. apply Hclass.
  - apply requireMatchingEHLO_trace in Hin.
    destruct Hin as (-> & a & Haddr & Hlit).
    rewrite (requireMatchingEHLO_lookup_error ctx a srcIPs err)
      by assumption.
    cbn [fst module.Reason module.withReason].
    eexists. split; [reflexivity|]. apply Hclass.
Qed.

(** C8: with an empty return-path [requireMXRecord] passes and its trace is
    empty, so no lookup was made; and when the MX lookup succeeds with zero
    records the result is a permanent failure, code 501 and enhanced code
    5.7.27. *)
Theorem requireMXRecord_empty_sender_and_no_records
  (ctx : dns.StatelessCheckContext) :
  dns.requireMXRecord ctx "" = (module.zero, [])
  /\ (forall mailFrom : string,
        mxLookupEmpty ctx (dns.requireMXRecord ctx mailFrom).2 ->
        exists e : SMTPError,
          module.Reason (dns.requireMXRecord ctx mailFrom).1
            = Some (SMTPErr e)
          /\ Code e = 501
          /\ EnhancedCode e = (5, 7, 27)
          /\ permanent e).
Proof.
  split; [reflexivity|].
  intros mailFrom (domain & Hin & Hlookup).
  apply requireMXRecord_trace in Hin.
  destruct Hin as (mailbox & a & Hfrom & Hsplit & Hdomain & Haddr).
  rewrite (requireMXRecord_lookup ctx mailFrom mailbox domain a)
    by assumption.
  rewrite Hlookup. cbn.
  eexists. split; [reflexivity|]. repeat split.
Qed.

(** C9: when the return-path does not parse, [requireMXRecord] fails with the
    parse error wrapped in a fields error whose "check" field names
    "require_matching_rdns", the rDNS check, not "require_mx_record". *)
Theorem requireMXRecord_parse_failure_names_rdns_check
  (ctx : dns.StatelessCheckContext) (mailFrom mailbox domain : string)
  (err : error) :
  mailFrom <> "" ->
  address_Split mailFrom = (mailbox, domain, Some err) ->
  exists r : error,
    dns.requireMXRecord ctx mailFrom = (module.withReason r, [])
    /\ r = WithFields err {[ "check" := "require_matching_rdns" ]}
    /\ Unwrap r = Some err
    /\ checkOf r = Some "require_matching_rdns"
    /\ checkOf r <> Some "require_mx_record".
Proof.
  intros Hfrom Hsplit. unfold dns.requireMXRecord.
  destruct (String.eqb_spec mailFrom ""); [contradiction|].
  rewrite Hsplit. eexists. split; [reflexivity|].
  split; [reflexivity|]. split; [reflexivity|].
  cbn. rewrite lookup_singleton_eq. split; [reflexivity | discriminate].
Qed.

End DNSChecks.

Lemma requireMatchingRDNS_failed_lookup_code_40_witness :
  let ctx := Sample.context Sample.empty (Some {| dns.Get := dns.anyNil |}) in
  exists e : SMTPError,
    @dns.requireMatchingRDNS Sample.imports ctx
      = (module.withReason (SMTPErr e), [])
    /\ Code e = 40
    /\ EnhancedCode e = (4, 7, 25)
    /\ CheckName e = "require_matching_rdns"
    /\ Code e `quot` 100 = 0
    /\ ~ (100 <= Code e <= 999)
    /\ ~ transient e.
Proof.
  intros ctx.
  apply (@requireMatchingRDNS_failed_lookup_code_40 Sample.imports ctx
           {| dns.Get := dns.anyNil |}).
  - reflexivity.
  - intros s. cbn. discriminate.
Defined.

Lemma resolver_error_classification_witness :
  let mx := Sample.context (Sample.failing Sample.timeout) None in
  let ehlo := Sample.context (Sample.failing Sample.nxdomain) None in
  (exists e : SMTPError,
     module.Reason (@dns.requireMXRecord Sample.imports mx "a@example.org").1
       = Some (SMTPErr e)
     /\ Code e = 420 /\ EnhancedCode e = (4, 7, 27))
  /\ (exists e : SMTPError,
        module.Reason (@dns.requireMatchingEHLO Sample.imports ehlo).1
          = Some (SMTPErr e)
        /\ Code e = 501 /\ EnhancedCode e = (5, 7, 27)).
Proof.
  intros mx ehlo. split.
  - destruct (@resolver_error_classification Sample.imports mx
                "a@example.org" Sample.timeout
                (@dns.requireMXRecord Sample.imports mx "a@example.org"))
      as (e & Hr & _ & Htemp & _).
    + left. split; [reflexivity|].
      exists "example.org", []. split; [left|]; reflexivity.
    + exists e. split; [exact Hr|].
      destruct (Htemp eq_refl) as (Hc & Hec & _). split; assumption.
  - destruct (@resolver_error_classification Sample.imports ehlo
                "" Sample.nxdomain
                (@dns.requireMatchingEHLO Sample.imports ehlo))
      as (e & Hr & _ & _ & Hperm).
    + right. split; [reflexivity|].
      exists "mail.example.com", []. split; [left|]; reflexivity.
    + exists e. split; [exact Hr|].
      destruct (Hperm eq_refl) as (Hc & Hec & _). split; assumption.
Defined.

Lemma requireMXRecord_empty_sender_and_no_records_witness :
  let ctx := Sample.context Sample.empty None in
  exists e : SMTPError,
    module.Reason (@dns.requireMXRecord Sample.imports ctx "a@example.org").1
      = Some (SMTPErr e)
    /\ Code e = 501
    /\ EnhancedCode e = (5, 7, 27)
    /\ permanent e.
Proof.
  intros ctx.
  apply (proj2 (@requireMXRecord_empty_sender_and_no_records
                  Sample.imports ctx)).
  exists "example.org". split; [left|]; reflexivity.
Defined.

Lemma requireMXRecord_parse_failure_names_rdns_check_witness :
  let ctx := Sample.context Sample.empty None in
  exists r : error,
    @dns.requireMXRecord Sample.imports ctx "postmaster.example.org"
      = (module.withReason r, [])
    /\ r = WithFields (errorString "address: missing at-sign")
             {[ "check" := "require_matching_rdns" ]}
    /\ Unwrap r = Some (errorString "address: missing at-sign")
    /\ checkOf r = Some "require_matching_rdns"
    /\ checkOf r <> Some "require_mx_record".
Proof.
  intros ctx.
  apply (@requireMXRecord_parse_failure_names_rdns_check Sample.imports ctx
           "postmaster.example.org" "" "").
  - discriminate.
  - reflexivity.
Defined.

(** * Further properties *)

(** ** [ParseActionDirective] and [FailActionDirective] *)

Lemma ParseRejectDirective_too_many (args : list string) :
  (3 < length args)%nat ->
  check.ParseRejectDirective args
  = (None, Some (Errorf "invalid count of arguments" [])).
Proof.
  intros Hlen.
  destruct args as [|a0 [|a1 [|a2 [|a3 rest]]]]; cbn in Hlen; try lia.
  reflexivity.
Qed.

(** What a successful [ParseRejectDirective] returns. *)
Lemma ParseRejectDirective_ok (args : list string) (r : option SMTPError) :
  check.ParseRejectDirective args = (r, None) ->
  exists code ec msg,
    r = Some {| Code := code; EnhancedCode := ec; Message := msg;
                CheckName := ""; Err := None; Misc := ∅;
                Reason := "reject directive used" |}
    /\ (code `quot` 100 = 4 \/ code `quot` 100 = 5)
    /\ (ec.1.1 = 4 \/ ec.1.1 = 5)
    /\ msg <> "".
Proof.
  intros Hr. unfold check.ParseRejectDirective in Hr.
  destruct args as [|a0 [|a1 [|a2 [|a3 rest]]]].
  - inversion Hr. exists 554, (5, 7, 0). eexists.
    split; [reflexivity|]. repeat split; try (right; reflexivity);
      try discriminate.
  - apply rejectCase1_ok in Hr. destruct Hr as (code & -> & _ & Hc).
    exists code, (5, 7, 0). eexists.
    split; [reflexivity|]. repeat split; auto; try discriminate.
  - apply rejectCase2_ok in Hr. destruct Hr as (ec & _ & Hec & Hr).
    apply rejectCase1_ok in Hr. destruct Hr as (code & -> & _ & Hc).
    exists code, ec. eexists. split; [reflexivity|].
    repeat split; auto; try discriminate.
  - apply rejectCase3_ok in Hr. destruct Hr as (Hmsg & Hr).
    apply rejectCase2_ok in Hr. destruct Hr as (ec & _ & Hec & Hr).
    apply rejectCase1_ok in Hr. destruct Hr as (code & -> & _ & Hc).
    exists code, ec, a2. split; [reflexivity|]. auto.
  - discriminate Hr.
Qed.

(** The shape of every result of [ParseActionDirective]. *)
Lemma ParseActionDirective_cases (args : list string) :
  match args with
  | [] =>
      check.ParseActionDirective args
      = (check.zero, Some (errorString "expected at least 1 argument"))
  | arg0 :: rest =>
      if String.eqb arg0 "reject" || String.eqb arg0 "quarantine" then
        match rest with
        | [] =>
            check.ParseActionDirective args
            = ({| check.Quarantine := String.eqb arg0 "quarantine";
                  check.Reject := String.eqb arg0 "reject";
                  check.ReasonOverride := None |}, None)
        | _ :: _ =>
            match check.ParseRejectDirective rest with
            | (_, Some err) =>
                check.ParseActionDirective args = (check.zero, Some err)
            | (override, None) =>
                check.ParseActionDirective args
                = ({| check.Quarantine := String.eqb arg0 "quarantine";
                      check.Reject := String.eqb arg0 "reject";
                      check.ReasonOverride := override |}, None)
            end
        end
      else if String.eqb arg0 "ignore" then
        check.ParseActionDirective args = (check.zero, None)
      else
        check.ParseActionDirective args
        = (check.zero, Some (errorString "invalid action"))
  end.
Proof.
  destruct args as [|arg0 rest]; [reflexivity|].
  unfold check.ParseActionDirective.
  destruct (String.eqb arg0 "reject" || String.eqb arg0 "quarantine") eqn:Hkw.
  - destruct rest as [|a1 rest]; [reflexivity|].
    cbn [length Nat.ltb Nat.leb].
    destruct (check.ParseRejectDirective (a1 :: rest)) as [o [err|]];
      reflexivity.
  - apply orb_false_iff in Hkw. destruct Hkw as [Hr Hq].
    destruct (String.eqb arg0 "ignore"); [|reflexivity].
    rewrite Hr, Hq. reflexivity.
Qed.

(** X1: an action parsed without error has the flag of its keyword and no
    other: reject for "reject", quarantine for "quarantine", none for
    "ignore"; the two flags are never both set. *)
Theorem ParseActionDirective_flags
  (args : list string) (cfa : check.FailAction) :
  check.ParseActionDirective args = (cfa, None) ->
  exists arg0 rest,
    args = arg0 :: rest
    /\ (arg0 = "reject" \/ arg0 = "quarantine" \/ arg0 = "ignore")
    /\ (check.Reject cfa = true <-> arg0 = "reject")
    /\ (check.Quarantine cfa = true <-> arg0 = "quarantine")
    /\ check.Reject cfa && check.Quarantine cfa = false
    /\ (arg0 = "ignore" -> check.ReasonOverride cfa = None).
Proof.
  intros Hp. pose proof (ParseActionDirective_cases args) as Hc.
  destruct args as [|arg0 rest]; [rewrite Hp in Hc; discriminate Hc|].
  exists arg0, rest. split; [reflexivity|].
  destruct (String.eqb_spec arg0 "reject") as [->|Hr];
    [|destruct (String.eqb_spec arg0 "quarantine") as [->|Hq]];
    cbn [orb] in Hc.
  1,2: (destruct rest as [|a1 rest'];
        [|destruct (check.ParseRejectDirective (a1 :: rest')) as [o [e|]]];
        rewrite Hp in Hc; inversion Hc; subst; cbn;
        repeat split; auto; try discriminate; intros; discriminate).
  destruct (String.eqb_spec arg0 "ignore") as [->|Hi];
    rewrite Hp in Hc; inversion Hc; subst; cbn.
  repeat split; auto; try discriminate; intros; discriminate.
Qed.

Lemma ParseActionDirective_flags_witness :
  exists arg0 rest,
    ["quarantine"; "450"; "4.7.1"] = arg0 :: rest
    /\ (arg0 = "reject" \/ arg0 = "quarantine" \/ arg0 = "ignore")
    /\ (check.Reject (check.ParseActionDirective
                        ["quarantine"; "450"; "4.7.1"]).1 = true
        <-> arg0 = "reject")
    /\ (check.Quarantine (check.ParseActionDirective
                            ["quarantine"; "450"; "4.7.1"]).1 = true
        <-> arg0 = "quarantine")
    /\ check.Reject (check.ParseActionDirective
                       ["quarantine"; "450"; "4.7.1"]).1
       && check.Quarantine (check.ParseActionDirective
                              ["quarantine"; "450"; "4.7.1"]).1 = false
    /\ (arg0 = "ignore" ->
        check.ReasonOverride (check.ParseActionDirective
                                ["quarantine"; "450"; "4.7.1"]).1 = None).
Proof.
  apply (ParseActionDirective_flags ["quarantine"; "450"; "4.7.1"]).
  reflexivity.
Defined.

(** X2: [ParseActionDirective] fails on an empty argument list and on any
    keyword other than "reject", "quarantine" and "ignore", whatever follows
    it; and whenever it fails, the action it returns is the zero
    [FailAction]. *)
Theorem ParseActionDirective_errors :
  check.ParseActionDirective []
  = (check.zero, Some (errorString "expected at least 1 argument"))
  /\ (forall arg0 rest,
        arg0 <> "reject" -> arg0 <> "quarantine" -> arg0 <> "ignore" ->
        check.ParseActionDirective (arg0 :: rest)
        = (check.zero, Some (errorString "invalid action")))
  /\ (forall args cfa err,
        check.ParseActionDirective args = (cfa, Some err) ->
        cfa = check.zero).
Proof.
  split; [reflexivity|]. split.
  - intros arg0 rest Hr Hq Hi.
    pose proof (ParseActionDirective_cases (arg0 :: rest)) as Hc.
    cbn beta iota in Hc.
    destruct (String.eqb_spec arg0 "reject"); [contradiction|].
    destruct (String.eqb_spec arg0 "quarantine"); [contradiction|].
    destruct (String.eqb_spec arg0 "ignore"); [contradiction|].
    exact Hc.
  - intros args cfa err Hp.
    pose proof (ParseActionDirective_cases args) as Hc.
    destruct args as [|arg0 rest]; [congruence|].
    destruct (String.eqb arg0 "reject" || String.eqb arg0 "quarantine").
    + destruct rest as [|a1 rest'];
        [|destruct (check.ParseRejectDirective (a1 :: rest')) as [o [e|]]];
        congruence.
    + destruct (String.eqb arg0 "ignore"); congruence.
Qed.

Lemma ParseActionDirective_errors_witness :
  check.ParseActionDirective ["drop"; "550"]
  = (check.zero, Some (errorString "invalid action"))
  /\ (check.ParseActionDirective ["reject"; "250"]).1 = check.zero.
Proof.
  destruct ParseActionDirective_errors as (_ & Hkw & Hzero).
  split.
  - apply Hkw; discriminate.
  - apply (Hzero ["reject"; "250"] _
             (Errorf "error code should start with either 4 or 5" [])).
    reflexivity.
Defined.

(** X3: after "reject" or "quarantine" at most three arguments may follow: a
    longer list fails with the argument-count error of
    [ParseRejectDirective]. *)
Theorem ParseActionDirective_too_many (arg0 : string) (rest : list string) :
  arg0 = "reject" \/ arg0 = "quarantine" ->
  (3 < length rest)%nat ->
  check.ParseActionDirective (arg0 :: rest)
  = (check.zero, Some (Errorf "invalid count of arguments" [])).
Proof.
  intros Hkw Hlen.
  pose proof (ParseActionDirective_cases (arg0 :: rest)) as Hc.
  cbn beta iota in Hc.
  replace (String.eqb arg0 "reject" || String.eqb arg0 "quarantine")
    with true in Hc by (destruct Hkw; subst; reflexivity).
  rewrite (ParseRejectDirective_too_many rest Hlen) in Hc.
  destruct rest; [cbn in Hlen; lia | exact Hc].
Qed.

Lemma ParseActionDirective_too_many_witness :
  check.ParseActionDirective ["reject"; "550"; "5.7.1"; "no"; "thanks"]
  = (check.zero, Some (Errorf "invalid count of arguments" [])).
Proof.
  apply ParseActionDirective_too_many; [left; reflexivity | cbn; lia].
Defined.

(** X4: every action [FailActionDirective] lets through is well formed: the
    node has no block, at most one of the two flags is set, and an override,
    if there is one, has a code from 400 to 599, an enhanced code of class 4
    or 5 and a non-empty message. *)
Theorem FailActionDirective_well_formed
  (m : check.Map) (node : check.Node) (cfa : check.FailAction) :
  (check.FailActionDirective m node).1 = Some cfa ->
  check.Children node = []
  /\ (check.FailActionDirective m node).2 = None
  /\ check.ParseActionDirective (check.Args node) = (cfa, None)
  /\ check.Reject cfa && check.Quarantine cfa = false
  /\ (forall override, check.ReasonOverride cfa = Some override ->
        400 <= Code override <= 599
        /\ ((EnhancedCode override).1.1 = 4
            \/ (EnhancedCode override).1.1 = 5)
        /\ Message override <> "").
Proof.
  unfold check.FailActionDirective.
  destruct (check.Children node) as [|child children];
    [|discriminate 1]. cbn [length Nat.eqb negb].
  destruct (check.ParseActionDirective (check.Args node)) as [val [err|]]
    eqn:Hp; [discriminate 1|].
  cbn. intros Hval. inversion Hval. subst val.
  split; [reflexivity|]. split; [reflexivity|]. split; [reflexivity|].
  pose proof (ParseActionDirective_cases (check.Args node)) as Hc.
  rewrite Hp in Hc.
  destruct (check.Args node) as [|arg0 rest]; [discriminate Hc|].
  destruct (String.eqb arg0 "reject" || String.eqb arg0 "quarantine") eqn:Hkw.
  - assert (Hflags : String.eqb arg0 "reject"
                     && String.eqb arg0 "quarantine" = false).
    { destruct (String.eqb_spec arg0 "reject") as [->|]; reflexivity. }
    destruct rest as [|a1 rest'].
    + inversion Hc. subst. cbn. split; [assumption | discriminate].
    + destruct (check.ParseRejectDirective (a1 :: rest')) as [o [e|]] eqn:Ho;
        inversion Hc. subst. cbn. split; [assumption|].
      intros override ->.
      apply ParseRejectDirective_ok in Ho.
      destruct Ho as (code & ec & msg & Heq & Hcode & Hec & Hmsg).
      inversion Heq. subst. cbn.
      split; [quot_lia | auto].
  - destruct (String.eqb arg0 "ignore"); inversion Hc. subst. cbn.
    split; [reflexivity | discriminate].
Qed.

Lemma FailActionDirective_well_formed_witness :
  let m := {| check.MatchErr := fun format args => Errorf format args |} in
  let node := check.mkNode "fail_action" ["reject"; "550"; "5.7.1"] [] in
  exists cfa,
    (check.FailActionDirective m node).1 = Some cfa
    /\ check.Reject cfa = true
    /\ check.Reject cfa && check.Quarantine cfa = false
    /\ (forall override, check.ReasonOverride cfa = Some override ->
          400 <= Code override <= 599).
Proof.
  intros m node.
  destruct (check.FailActionDirective m node).1 as [cfa|] eqn:Hcfa;
    [|discriminate Hcfa].
  exists cfa. split; [reflexivity|].
  destruct (FailActionDirective_well_formed m node cfa Hcfa)
    as (_ & _ & _ & Hflags & Hover).
  split; [inversion Hcfa; reflexivity|]. split; [exact Hflags|].
  intros override Ho. apply (Hover override Ho).
Defined.

(** ** [Apply], alone and after [ParseActionDirective] *)

Lemma Apply_fail (p : check.FailAction) (v : module.CheckResult)
  (reason : error) :
  module.Reason v = Some reason ->
  check.Apply p v
  = {| module.Reason :=
         Some match check.ReasonOverride p with
              | Some override =>
                  SMTPErr {| Code := Code override;
                             EnhancedCode := EnhancedCode override;
                             Message := Message override;
                             CheckName := "";
                             Err := Some reason;
                             Misc := ∅;
                             Reason := "" |}
              | None => reason
              end;
       module.Quarantine := check.Quarantine p || module.Quarantine v;
       module.Reject := check.Reject p || module.Reject v |}.
Proof. intros Hr. unfold check.Apply. rewrite Hr. reflexivity. Qed.

Lemma Apply_keeps_verdict_aux (p : check.FailAction)
  (v : module.CheckResult) :
  module.Reason (check.Apply p v) <> None <-> module.Reason v <> None.
Proof.
  destruct (module.Reason v) as [reason|] eqn:Hr.
  - rewrite (Apply_fail p v reason Hr). cbn. split; discriminate.
  - rewrite Apply_pass by assumption. rewrite Hr. tauto.
Qed.

(** X5: [Apply] never turns a pass into a failure nor a failure into a pass:
    the result has a reason exactly when the original result has one. *)
Theorem Apply_keeps_verdict (p : check.FailAction) (v : module.CheckResult) :
  module.Reason (check.Apply p v) = None <-> module.Reason v = None.
Proof.
  destruct (module.Reason v) as [reason|] eqn:Hr.
  - rewrite (Apply_fail p v reason Hr). cbn. split; discriminate.
  - rewrite Apply_pass by assumption. rewrite Hr. tauto.
Qed.

Lemma Apply_keeps_verdict_witness :
  module.Reason (check.Apply Sample.quarantineAndReject module.zero) = None.
Proof.
  apply (proj2 (Apply_keeps_verdict Sample.quarantineAndReject module.zero)).
  reflexivity.
Defined.

(** X6: the action of "ignore", whatever follows the keyword, leaves every
    result exactly as it is. *)
Theorem Apply_ignore_identity (rest : list string) (v : module.CheckResult) :
  check.Apply (check.ParseActionDirective ("ignore" :: rest)).1 v = v.
Proof.
  cbn [check.ParseActionDirective fst]. cbn.
  unfold check.Apply. destruct v as [[reason|] rej quar]; reflexivity.
Qed.

(** X7: an action given by its keyword alone ("reject" or "quarantine", no
    further argument) sets its flag on a failing result and leaves the reason
    of the check as it is: no default override is made up. *)
Theorem Apply_bare_keyword (arg0 : string) (v : module.CheckResult)
  (reason : error) :
  arg0 = "reject" \/ arg0 = "quarantine" ->
  module.Reason v = Some reason ->
  let res := check.Apply (check.ParseActionDirective [arg0]).1 v in
  module.Reason res = Some reason
  /\ module.Reject res = String.eqb arg0 "reject" || module.Reject v
  /\ module.Quarantine res
     = String.eqb arg0 "quarantine" || module.Quarantine v.
Proof.
  intros Hkw Hr res. subst res.
  rewrite (Apply_fail _ v reason Hr).
  destruct Hkw; subst; cbn; repeat split.
Qed.

Lemma Apply_bare_keyword_witness :
  let v := module.withReason (errorString "no MX") in
  let res := check.Apply (check.ParseActionDirective ["reject"]).1 v in
  module.Reason res = Some (errorString "no MX")
  /\ module.Reject res = true
  /\ module.Quarantine res = false.
Proof.
  intros v.
  apply (Apply_bare_keyword "reject" v (errorString "no MX"));
    [left|]; reflexivity.
Defined.

(** X8: an action parsed with arguments after "reject" or "quarantine"
    answers every failure with the configured reply: the reason [Apply]
    installs has a code from 400 to 599, an enhanced code of class 4 or 5
    and a non-empty message, and unwraps to the reason of the check. *)
Theorem Apply_configured_override
  (arg0 arg1 : string) (rest : list string) (cfa : check.FailAction)
  (v : module.CheckResult) (reason : error) :
  check.ParseActionDirective (arg0 :: arg1 :: rest) = (cfa, None) ->
  module.Reason v = Some reason ->
  arg0 = "ignore"
  \/ exists e : SMTPError,
       module.Reason (check.Apply cfa v) = Some (SMTPErr e)
       /\ 400 <= Code e <= 599
       /\ ((EnhancedCode e).1.1 = 4 \/ (EnhancedCode e).1.1 = 5)
       /\ Message e <> ""
       /\ Unwrap (SMTPErr e) = Some reason.
Proof.
  intros Hp Hr.
  pose proof (ParseActionDirective_cases (arg0 :: arg1 :: rest)) as Hc.
  cbn beta iota in Hc.
  destruct (String.eqb arg0 "reject" || String.eqb arg0 "quarantine").
  - right.
    destruct (check.ParseRejectDirective (arg1 :: rest)) as [o [err|]] eqn:Ho;
      rewrite Hp in Hc; inversion Hc. subst cfa.
    apply ParseRejectDirective_ok in Ho.
    destruct Ho as (code & ec & msg & -> & Hcode & Hec & Hmsg).
    rewrite (Apply_fail _ v reason Hr). cbn.
    eexists. split; [reflexivity|]. cbn.
    split; [quot_lia | auto].
  - destruct (String.eqb_spec arg0 "ignore"); [left; assumption|].
    rewrite Hp in Hc. discriminate Hc.
Qed.

Lemma Apply_configured_override_witness :
  let v := module.withReason (errorString "no MX") in
  exists e : SMTPError,
    module.Reason
      (check.Apply
         (check.ParseActionDirective ["reject"; "451"; "4.7.1"; "later"]).1 v)
    = Some (SMTPErr e)
    /\ 400 <= Code e <= 599
    /\ ((EnhancedCode e).1.1 = 4 \/ (EnhancedCode e).1.1 = 5)
    /\ Message e <> ""
    /\ Unwrap (SMTPErr e) = Some (errorString "no MX").
Proof.
  intros v.
  destruct (Apply_configured_override "reject" "451" ["4.7.1"; "later"]
              (check.ParseActionDirective
                 ["reject"; "451"; "4.7.1"; "later"]).1
              v (errorString "no MX") eq_refl eq_refl) as [Hi|He].
  - discriminate Hi.
  - exact He.
Defined.

(** X9: without an override [Apply] is idempotent: applying the same action
    a second time changes nothing. *)
Theorem Apply_idempotent_without_override
  (p : check.FailAction) (v : module.CheckResult) :
  check.ReasonOverride p = None ->
  check.Apply p (check.Apply p v) = check.Apply p v.
Proof.
  intros Ho. destruct (module.Reason v) as [reason|] eqn:Hr.
  - rewrite (Apply_fail p v reason Hr), Ho.
    unfold check.Apply. cbn. rewrite Ho.
    rewrite !orb_assoc, !orb_diag. reflexivity.
  - rewrite (Apply_pass p v Hr). apply (Apply_pass p v Hr).
Qed.

Lemma Apply_idempotent_without_override_witness :
  let v := module.withReason (errorString "no MX") in
  check.Apply Sample.quarantineAndReject
    (check.Apply Sample.quarantineAndReject v)
  = check.Apply Sample.quarantineAndReject v.
Proof.
  intros v.
  apply (Apply_idempotent_without_override Sample.quarantineAndReject v).
  reflexivity.
Defined.

(** X10: with an override [Apply] is not idempotent on a failure: a second
    application wraps the reason once more, so its cause chain is one error
    longer; the flags stay the same. *)
Theorem Apply_twice_wraps_twice
  (p : check.FailAction) (v : module.CheckResult)
  (override : SMTPError) (reason : error) :
  check.ReasonOverride p = Some override ->
  module.Reason v = Some reason ->
  exists once twice,
    module.Reason (check.Apply p v) = Some once
    /\ module.Reason (check.Apply p (check.Apply p v)) = Some twice
    /\ chain twice = twice :: chain once
    /\ length (chain twice) = S (length (chain once))
    /\ twice <> once
    /\ module.Quarantine (check.Apply p (check.Apply p v))
       = module.Quarantine (check.Apply p v)
    /\ module.Reject (check.Apply p (check.Apply p v))
       = module.Reject (check.Apply p v).
Proof.
  intros Ho Hr.
  rewrite (Apply_fail p v reason Hr), Ho.
  unfold check.Apply. cbn. rewrite Ho.
  eexists. eexists. split; [reflexivity|]. split; [reflexivity|].
  split; [reflexivity|]. split; [reflexivity|].
  split.
  - intros Heq. apply (f_equal (fun e => length (chain e))) in Heq.
    cbn in Heq. lia.
  - rewrite !orb_assoc, !orb_diag. split; reflexivity.
Qed.

Lemma Apply_twice_wraps_twice_witness :
  let p := (check.ParseActionDirective ["reject"; "550"]).1 in
  let v := module.withReason (errorString "no MX") in
  exists once twice,
    module.Reason (check.Apply p v) = Some once
    /\ module.Reason (check.Apply p (check.Apply p v)) = Some twice
    /\ chain twice = twice :: chain once
    /\ length (chain twice) = S (length (chain once))
    /\ twice <> once
    /\ module.Quarantine (check.Apply p (check.Apply p v))
       = module.Quarantine (check.Apply p v)
    /\ module.Reject (check.Apply p (check.Apply p v))
       = module.Reject (check.Apply p v).
Proof.
  intros p v.
  refine (Apply_twice_wraps_twice p v _ (errorString "no MX") _ eq_refl).
  reflexivity.
Defined.

(** The reason after one [Apply], whatever the action. *)
Lemma Apply_chain (p : check.FailAction) (v : module.CheckResult)
  (reason : error) :
  module.Reason v = Some reason ->
  exists reason',
    module.Reason (check.Apply p v) = Some reason'
    /\ chain reason `suffix_of` chain reason'.
Proof.
  intros Hr. rewrite (Apply_fail p v reason Hr). cbn.
  eexists. split; [reflexivity|].
  destruct (check.ReasonOverride p) as [override|].
  - cbn. apply suffix_cons_r. reflexivity.
  - reflexivity.
Qed.

Lemma chain_nonempty (e : error) : chain e <> [].
Proof. rewrite chain_Unwrap. discriminate. Qed.

Lemma applyAll_chain (actions : list check.FailAction) :
  forall (v : module.CheckResult) (reason : error),
    module.Reason v = Some reason ->
    exists reason',
      module.Reason (applyAll actions v) = Some reason'
      /\ chain reason `suffix_of` chain reason'.
Proof.
  induction actions as [|p actions IH]; intros v reason Hr.
  - exists reason. split; [assumption | reflexivity].
  - destruct (Apply_chain p v reason Hr) as (r1 & Hr1 & Hs1).
    destruct (IH (check.Apply p v) r1 Hr1) as (r2 & Hr2 & Hs2).
    exists r2. split; [exact Hr2|]. etransitivity; eassumption.
Qed.

(** X11: however many actions are applied in turn to a failing result, the
    cause chain of the original reason is kept whole at the end of the new
    chain: the original reason can still be reached by unwrapping, and the
    innermost cause is the same. *)
Theorem applyAll_keeps_cause
  (actions : list check.FailAction) (v : module.CheckResult)
  (reason : error) :
  module.Reason v = Some reason ->
  exists reason',
    module.Reason (applyAll actions v) = Some reason'
    /\ chain reason `suffix_of` chain reason'
    /\ reason ∈ chain reason'
    /\ last (chain reason') = last (chain reason).
Proof.
  intros Hr.
  destruct (applyAll_chain actions v reason Hr) as (reason' & Hr' & Hs).
  exists reason'. split; [assumption|]. split; [assumption|].
  destruct Hs as [prefix Hs]. rewrite Hs. split.
  - apply elem_of_app. right. apply chain_head.
  - pose proof (chain_nonempty reason) as Hne.
    destruct (chain reason) as [|x l]; [congruence|].
    apply last_app_cons.
Qed.

Lemma applyAll_keeps_cause_witness :
  let override := (check.ParseActionDirective ["reject"; "550"]).1 in
  let v := module.withReason (errorString "no MX") in
  exists reason',
    module.Reason (applyAll [override; Sample.quarantineAndReject; override] v)
      = Some reason'
    /\ chain (errorString "no MX") `suffix_of` chain reason'
    /\ errorString "no MX" ∈ chain reason'
    /\ last (chain reason') = last (chain (errorString "no MX")).
Proof.
  intros override v.
  apply (applyAll_keeps_cause
           [override; Sample.quarantineAndReject; override] v
           (errorString "no MX")).
  reflexivity.
Defined.

(** X12: on a failing result the flags after several actions are the flags
    of the result or of any of the actions, in whatever order the actions
    come. *)
Theorem applyAll_flags
  (actions : list check.FailAction) (v : module.CheckResult) :
  module.Reason v <> None ->
  module.Quarantine (applyAll actions v)
    = module.Quarantine v || existsb check.Quarantine actions
  /\ module.Reject (applyAll actions v)
     = module.Reject v || existsb check.Reject actions.
Proof.
  revert v. induction actions as [|p actions IH]; intros v Hr.
  - cbn. rewrite !orb_false_r. split; reflexivity.
  - cbn [applyAll fold_left existsb].
    destruct (Apply_fail_flags p v Hr) as [Hq Hj].
    destruct (IH (check.Apply p v)) as [IHq IHj].
    { rewrite Apply_keeps_verdict_aux. assumption. }
    unfold applyAll in IHq, IHj. rewrite IHq, IHj, Hq, Hj.
    split.
    + rewrite (orb_comm (check.Quarantine p)), orb_assoc. reflexivity.
    + rewrite (orb_comm (check.Reject p)), orb_assoc. reflexivity.
Qed.

Lemma applyAll_flags_witness :
  let v := module.withReason (errorString "no MX") in
  let actions := [(check.ParseActionDirective ["ignore"]).1;
                  (check.ParseActionDirective ["quarantine"]).1] in
  module.Quarantine (applyAll actions v) = true
  /\ module.Reject (applyAll actions v) = false.
Proof.
  intros v actions.
  apply (applyAll_flags actions v). discriminate.
Defined.

(** ** Decimal writing and [strconv.Atoi] *)

Lemma digit_cases (d : Z) :
  0 <= d <= 9 ->
  d = 0 \/ d = 1 \/ d = 2 \/ d = 3 \/ d = 4
  \/ d = 5 \/ d = 6 \/ d = 7 \/ d = 8 \/ d = 9.
Proof. lia. Qed.

Lemma digitVal_digitChar (d : Z) :
  0 <= d <= 9 -> strconv.digitVal (digitChar d) = Some d.
Proof.
  intros Hd. destruct (digit_cases d Hd) as [->|[->|[->|[->|[->|[->|
    [->|[->|[->| ->]]]]]]]]]; reflexivity.
Qed.

Lemma digitChar_not (d : Z) (c : ascii) :
  0 <= d <= 9 -> strconv.digitVal c = None -> Ascii.eqb (digitChar d) c = false.
Proof.
  intros Hd Hc. destruct (Ascii.eqb_spec (digitChar d) c) as [<-|]; [|easy].
  rewrite digitVal_digitChar in Hc by assumption. discriminate Hc.
Qed.

Lemma maxUint64_value : strconv.maxUint64 = 18446744073709551615.
Proof. reflexivity. Qed.

(** One digit more. *)
Lemma parseUintLoop_step (d n : Z) (s : string) :
  0 <= d <= 9 -> 0 <= n -> n * 10 + d <= strconv.maxUint64 ->
  strconv.parseUintLoop (String (digitChar d) s) n
  = strconv.parseUintLoop s (n * 10 + d).
Proof.
  intros Hd Hn Hmax. cbn [strconv.parseUintLoop].
  rewrite digitVal_digitChar by assumption.
  rewrite maxUint64_value in *.
  destruct (Z.leb_spec (18446744073709551615 `quot` 10 + 1) n) as [Hc|_];
    [quot_lia|].
  destruct (Z.ltb_spec 18446744073709551615 (n * 10 + d)); [lia|].
  reflexivity.
Qed.

(** Reading the digits of [n] takes the parser from 0 to [n]. *)
Lemma parseUintLoop_digitsOf (fuel : nat) :
  forall (n : Z) (acc : string),
    0 <= n <= strconv.maxUint64 -> n <= Z.of_nat fuel ->
    strconv.parseUintLoop (digitsOf fuel n acc) 0
    = strconv.parseUintLoop acc n.
Proof.
  induction fuel as [|fuel IH]; intros n acc Hn Hfuel.
  - assert (n = 0) by lia. subst n. reflexivity.
  - cbn [digitsOf].
    assert (Hd : 0 <= n `mod` 10 <= 9) by (pose proof (Z.mod_pos_bound n 10); lia).
    destruct (Z.ltb_spec n 10) as [Hlt|Hge].
    + rewrite Z.mod_small by lia.
      rewrite parseUintLoop_step by lia. reflexivity.
    + rewrite IH.
      * rewrite parseUintLoop_step; try assumption.
        -- f_equal. pose proof (Z.div_mod n 10). lia.
        -- apply Z.div_pos; lia.
        -- pose proof (Z.div_mod n 10). lia.
      * split; [apply Z.div_pos; lia|].
        pose proof (Z.div_mod n 10). lia.
      * pose proof (Z.div_mod n 10). lia.
Qed.

Lemma digitsOf_head (fuel : nat) :
  forall (n : Z) (acc : string),
    0 <= n -> (fuel <> O \/ headDigit acc) ->
    headDigit (digitsOf fuel n acc).
Proof.
  induction fuel as [|fuel IH]; intros n acc Hn Hor.
  - destruct Hor as [Hf|Hacc]; [congruence | exact Hacc].
  - cbn [digitsOf].
    assert (Hd : 0 <= n `mod` 10 <= 9) by (pose proof (Z.mod_pos_bound n 10); lia).
    assert (Hacc' : headDigit (String (digitChar (n `mod` 10)) acc)).
    { exists (n `mod` 10). apply digitVal_digitChar. assumption. }
    destruct (n <? 10); [exact Hacc'|].
    apply IH; [apply Z.div_pos; lia | right; exact Hacc'].
Qed.

Lemma digitsOf_countByte (c : ascii) (fuel : nat) :
  strconv.digitVal c = None ->
  forall (n : Z) (acc : string),
    0 <= n -> countByte c (digitsOf fuel n acc) = countByte c acc.
Proof.
  intros Hc. induction fuel as [|fuel IH]; intros n acc Hn; [reflexivity|].
  cbn [digitsOf].
  assert (Hd : 0 <= n `mod` 10 <= 9) by (pose proof (Z.mod_pos_bound n 10); lia).
  assert (Hacc' : countByte c (String (digitChar (n `mod` 10)) acc)
                  = countByte c acc).
  { cbn [countByte]. rewrite digitChar_not by assumption. reflexivity. }
  destruct (n <? 10); [exact Hacc'|].
  rewrite IH by (apply Z.div_pos; lia). exact Hacc'.
Qed.

Lemma ParseUint_digits (n : Z) :
  0 <= n <= strconv.maxUint64 ->
  strconv.ParseUint (digitsOf (S (Z.to_nat n)) n EmptyString) = (n, None).
Proof.
  intros Hn.
  pose proof (digitsOf_head (S (Z.to_nat n)) n EmptyString) as Hh.
  unfold strconv.ParseUint.
  destruct (digitsOf (S (Z.to_nat n)) n EmptyString) as [|c s] eqn:Hs.
  - exfalso. apply Hh; [lia | left; discriminate].
  - rewrite <- Hs. rewrite parseUintLoop_digitsOf by lia. reflexivity.
Qed.

Lemma Atoi_reads_decimal (n : Z) :
  isInt n -> strconv.Atoi (decimal n) = (n, None).
Proof.
  unfold isInt. intros Hn.
  assert (H63 : 2 ^ 63 = 9223372036854775808) by reflexivity.
  rewrite H63 in Hn.
  unfold strconv.Atoi, decimal.
  destruct (Z.ltb_spec n 0) as [Hneg|Hpos].
  - unfold strconv.ParseInt. cbv beta iota zeta.
    change (Ascii.eqb "-" "-")%char with true.
    change (Ascii.eqb "-" "+")%char with false.
    cbn [orb negb andb].
    rewrite ParseUint_digits by (rewrite maxUint64_value; lia).
    rewrite H63.
    destruct (Z.ltb_spec 9223372036854775808 (- n)); [lia|].
    rewrite Z.opp_involutive. reflexivity.
  - assert (Hh : headDigit (digitsOf (S (Z.to_nat n)) n EmptyString)).
    { apply digitsOf_head; [assumption | left; apply Nat.neq_succ_0]. }
    pose proof (ParseUint_digits n) as Hu.
    destruct (digitsOf (S (Z.to_nat n)) n EmptyString) as [|c s];
      [destruct Hh|].
    destruct Hh as [d Hd].
    assert (Hminus : Ascii.eqb c "-" = false).
    { destruct (Ascii.eqb_spec c "-"%char) as [->|]; [discriminate Hd|easy]. }
    assert (Hplus : Ascii.eqb c "+" = false).
    { destruct (Ascii.eqb_spec c "+"%char) as [->|]; [discriminate Hd|easy]. }
    unfold strconv.ParseInt. cbv beta iota zeta.
    rewrite Hminus, Hplus. cbn [orb negb andb].
    rewrite Hu by (rewrite maxUint64_value; lia).
    rewrite H63.
    destruct (Z.leb_spec 9223372036854775808 n); [lia|].
    reflexivity.
Qed.

(** X13: [strconv.Atoi] reads back the decimal writing of every integer that
    fits 64 bits. *)
Theorem Atoi_decimal (n : Z) :
  isInt n -> strconv.Atoi (decimal n) = (n, None).
Proof. apply Atoi_reads_decimal. Qed.

Lemma Atoi_decimal_witness :
  strconv.Atoi (decimal (-451)) = (-451, None).
Proof. apply Atoi_decimal. unfold isInt. cbn. lia. Defined.

Lemma decimal_countByte (c : ascii) (n : Z) :
  strconv.digitVal c = None -> c <> "-"%char -> countByte c (decimal n) = 0%nat.
Proof.
  intros Hc Hminus. unfold decimal.
  destruct (Z.ltb_spec n 0).
  - cbn [countByte].
    destruct (Ascii.eqb_spec "-"%char c) as [Heq|_]; [congruence|].
    rewrite digitsOf_countByte by (assumption || lia). reflexivity.
  - rewrite digitsOf_countByte by (assumption || lia). reflexivity.
Qed.

Lemma decimal_nonempty (n : Z) : decimal n <> "".
Proof.
  unfold decimal. destruct (Z.ltb_spec n 0); [discriminate|].
  assert (Hh : headDigit (digitsOf (S (Z.to_nat n)) n EmptyString)).
  { apply digitsOf_head; [assumption | left; apply Nat.neq_succ_0]. }
  destruct (digitsOf _ n _); [destruct Hh | discriminate].
Qed.

(** ** [strings.Split] *)

Lemma Split_length (s : string) (sep : ascii) :
  length (gostrings.Split s sep) = S (countByte sep s).
Proof.
  induction s as [|c s IH]; [reflexivity|].
  cbn [gostrings.Split countByte].
  destruct (Ascii.eqb c sep).
  - cbn [length]. rewrite IH. reflexivity.
  - destruct (gostrings.Split s sep) as [|p ps] eqn:Hs.
    + exfalso. eapply Split_nonempty; eassumption.
    + cbn [length] in IH |- *. rewrite IH. reflexivity.
Qed.

Lemma Split_append (p s : string) (sep : ascii) :
  countByte sep p = 0%nat ->
  gostrings.Split (p +:+ String sep s) sep = p :: gostrings.Split s sep.
Proof.
  induction p as [|c p IH]; intros Hp.
  - change (EmptyString +:+ String sep s) with (String sep s).
    cbn [gostrings.Split]. rewrite Ascii.eqb_refl. reflexivity.
  - cbn [countByte] in Hp.
    change (String c p +:+ String sep s) with (String c (p +:+ String sep s)).
    cbn [gostrings.Split].
    destruct (Ascii.eqb c sep); [discriminate Hp|].
    rewrite IH by exact Hp. reflexivity.
Qed.

Lemma Split_none (p : string) (sep : ascii) :
  countByte sep p = 0%nat -> gostrings.Split p sep = [p].
Proof.
  induction p as [|c p IH]; intros Hp; [reflexivity|].
  cbn [countByte] in Hp. cbn [gostrings.Split].
  destruct (Ascii.eqb c sep); [discriminate Hp|].
  rewrite IH by exact Hp. reflexivity.
Qed.

(** ** [parseEnhancedCode] and [ParseRejectDirective], further *)

Lemma parseEnhancedCode_reads_formatCode (code : EnhancedCodeT) :
  isInt code.1.1 -> isInt code.1.2 -> isInt code.2 ->
  check.parseEnhancedCode (formatCode code) = (code, None).
Proof.
  destruct code as [[c0 c1] c2]. cbn [fst snd]. intros H0 H1 H2.
  unfold check.parseEnhancedCode, formatCode. cbn [fst snd].
  assert (Hsplit : gostrings.Split
            (decimal c0 +:+ String "." (decimal c1 +:+ String "." (decimal c2)))
            "." = [decimal c0; decimal c1; decimal c2]).
  { rewrite (Split_append (decimal c0)), (Split_append (decimal c1)),
      (Split_none (decimal c2))
      by (apply decimal_countByte; [reflexivity | discriminate]).
    reflexivity. }
  change (decimal c0 +:+ "." +:+ decimal c1 +:+ "." +:+ decimal c2)
    with (decimal c0 +:+ String "." (decimal c1 +:+ String "." (decimal c2))).
  rewrite Hsplit.
  cbn [length Nat.eqb negb]. rewrite parseParts_three.
  rewrite !Atoi_reads_decimal by assumption. reflexivity.
Qed.

(** X14: [parseEnhancedCode] reads back every enhanced code written as
    "class.subject.detail" in decimal, whatever the three integers (of 64
    bits) are. *)
Theorem parseEnhancedCode_formatCode (code : EnhancedCodeT) :
  isInt code.1.1 -> isInt code.1.2 -> isInt code.2 ->
  check.parseEnhancedCode (formatCode code) = (code, None).
Proof. apply parseEnhancedCode_reads_formatCode. Qed.

Lemma parseEnhancedCode_formatCode_witness :
  check.parseEnhancedCode (formatCode (4, 7, 25)) = ((4, 7, 25), None).
Proof.
  apply (parseEnhancedCode_formatCode (4, 7, 25)); unfold isInt; cbn; lia.
Defined.

(** X15: [ParseRejectDirective] reads back what was written in decimal: a
    code from 400 to 599 alone gives that code with the default enhanced code
    and message; with an enhanced code of class 4 or 5 (parts of 64 bits)
    after it, that enhanced code and the default message; with a non-empty
    message after that, all three as given. *)
Theorem ParseRejectDirective_reads_back
  (code : Z) (ec : EnhancedCodeT) (msg : string) :
  400 <= code <= 599 ->
  ec.1.1 = 4 \/ ec.1.1 = 5 ->
  isInt ec.1.2 -> isInt ec.2 ->
  msg <> "" ->
  check.ParseRejectDirective [decimal code]
  = check.rejectResult code (5, 7, 0) "Message rejected due to a local policy"
  /\ check.ParseRejectDirective [decimal code; formatCode ec]
     = check.rejectResult code ec "Message rejected due to a local policy"
  /\ check.ParseRejectDirective [decimal code; formatCode ec; msg]
     = check.rejectResult code ec msg.
Proof.
  intros Hcode Hclass H1 H2 Hmsg.
  assert (Hatoi : strconv.Atoi (decimal code) = (code, None)).
  { apply Atoi_reads_decimal. unfold isInt. cbn. lia. }
  assert (Hcase1 : forall enchCode m,
             check.rejectCase1 (decimal code) enchCode m
             = check.rejectResult code enchCode m).
  { intros enchCode m. unfold check.rejectCase1. rewrite Hatoi.
    destruct (Z.eqb_spec (code `quot` 100) 4); [reflexivity|].
    destruct (Z.eqb_spec (code `quot` 100) 5); [reflexivity|].
    exfalso. quot_lia. }
  assert (Hcase2 : forall m,
             check.rejectCase2 (decimal code) (formatCode ec) m
             = check.rejectResult code ec m).
  { intros m. unfold check.rejectCase2.
    rewrite parseEnhancedCode_reads_formatCode.
    - destruct (Z.eqb_spec (ec.1.1) 4); [apply Hcase1|].
      destruct (Z.eqb_spec (ec.1.1) 5); [apply Hcase1|].
      exfalso. tauto.
    - unfold isInt. cbn. destruct Hclass as [-> | ->]; lia.
    - assumption.
    - assumption. }
  unfold check.ParseRejectDirective. split; [apply Hcase1|].
  split; [apply Hcase2|].
  unfold check.rejectCase3.
  destruct (String.eqb_spec msg ""); [contradiction | apply Hcase2].
Qed.

Lemma ParseRejectDirective_reads_back_witness :
  check.ParseRejectDirective [decimal 451; formatCode (4, 7, 1); "later"]
  = check.rejectResult 451 (4, 7, 1) "later".
Proof.
  apply (ParseRejectDirective_reads_back 451 (4, 7, 1) "later");
    try (unfold isInt; cbn; lia).
  discriminate.
Defined.

(** X16: whatever [ParseRejectDirective] returns without error is a complete
    reply: a three-digit code from 400 to 599, a non-empty message, the
    reason tag "reject directive used", and neither check name, cause nor
    diagnostic fields. *)
Theorem ParseRejectDirective_result_shape (args : list string) :
  (check.ParseRejectDirective args).2 = None ->
  exists s : SMTPError,
    (check.ParseRejectDirective args).1 = Some s
    /\ 400 <= Code s <= 599
    /\ Message s <> ""
    /\ Reason s = "reject directive used"
    /\ CheckName s = ""
    /\ Err s = None
    /\ Misc s = ∅.
Proof.
  destruct (check.ParseRejectDirective args) as [r e] eqn:Hr.
  cbn [fst snd]. intros ->.
  apply ParseRejectDirective_ok in Hr.
  destruct Hr as (code & ec & msg & -> & Hcode & _ & Hmsg).
  eexists. split; [reflexivity|]. cbn.
  split; [quot_lia|]. repeat split. exact Hmsg.
Qed.

Lemma ParseRejectDirective_result_shape_witness :
  exists s : SMTPError,
    (check.ParseRejectDirective ["599"; "5.0.0"; "no"]).1 = Some s
    /\ 400 <= Code s <= 599
    /\ Message s <> ""
    /\ Reason s = "reject directive used"
    /\ CheckName s = ""
    /\ Err s = None
    /\ Misc s = ∅.
Proof.
  apply (ParseRejectDirective_result_shape ["599"; "5.0.0"; "no"]).
  reflexivity.
Defined.

(** X17: the arguments are validated from the last to the first.  An empty
    message is reported whatever the two arguments before it are, and an
    enhanced code that does not parse is reported whatever the code before it
    is. *)
Theorem ParseRejectDirective_validation_order (arg0 arg1 : string) :
  check.ParseRejectDirective [arg0; arg1; ""]
  = (None, Some (Errorf "message can't be empty" []))
  /\ (forall msg c err,
        check.parseEnhancedCode arg1 = (c, Some err) ->
        check.ParseRejectDirective [arg0; arg1] = (None, Some err)
        /\ (msg <> "" ->
            check.ParseRejectDirective [arg0; arg1; msg] = (None, Some err))).
Proof.
  split; [reflexivity|].
  intros msg c err Hec.
  unfold check.ParseRejectDirective, check.rejectCase3, check.rejectCase2.
  rewrite Hec. split; [reflexivity|].
  intros Hmsg. destruct (String.eqb_spec msg ""); [contradiction|].
  reflexivity.
Qed.

Lemma ParseRejectDirective_validation_order_witness :
  check.ParseRejectDirective ["250"; "5.7"; "no"]
  = (None, Some (Errorf "wrong amount of enhanced code parts" [])).
Proof.
  destruct (ParseRejectDirective_validation_order "250" "5.7") as [_ Horder].
  apply (Horder "no" (0, 0, 0)); [reflexivity | discriminate].
Defined.

(** ** What [strconv.Atoi] accepts *)

Lemma parseUintLoop_nonneg (s : string) :
  forall n, 0 <= n -> 0 <= (strconv.parseUintLoop s n).1.
Proof.
  induction s as [|c s IH]; intros n Hn; [exact Hn|].
  cbn [strconv.parseUintLoop].
  destruct (strconv.digitVal c) as [d|] eqn:Hd; [|cbn; lia].
  destruct (_ <=? n); [cbn; rewrite maxUint64_value; lia|].
  destruct (_ <? _); [cbn; rewrite maxUint64_value; lia|].
  apply IH.
  unfold strconv.digitVal in Hd.
  destruct (_ && _) eqn:Hrange; [|discriminate Hd].
  inversion Hd. lia.
Qed.

Lemma Atoi_range (s : string) (n : Z) :
  strconv.Atoi s = (n, None) -> s <> "" /\ isInt n.
Proof.
  unfold strconv.Atoi, strconv.ParseInt.
  destruct s as [|c s]; [discriminate 1|].
  intros Hparse. split; [discriminate|]. revert Hparse.
  cbv beta iota zeta.
  set (s1 := if (Ascii.eqb c "+" || Ascii.eqb c "-")%bool then s
             else String c s).
  assert (Hun : 0 <= (strconv.ParseUint s1).1).
  { unfold strconv.ParseUint. destruct s1; [cbn; lia|].
    apply parseUintLoop_nonneg. lia. }
  destruct (strconv.ParseUint s1) as [un [[|]|]]; cbn [fst] in Hun;
    try discriminate 1;
    assert (H63 : 2 ^ 63 = 9223372036854775808) by reflexivity;
    unfold isInt; rewrite H63;
    destruct (Ascii.eqb c "-"); cbn [negb andb];
    repeat match goal with
           | |- context [Z.leb ?a ?b] => destruct (Z.leb_spec a b)
           | |- context [Z.ltb ?a ?b] => destruct (Z.ltb_spec a b)
           end;
    try discriminate 1; intros Heq; inversion Heq; subst; lia.
Qed.

(** X18: a string [parseEnhancedCode] accepts has exactly two dots and no
    empty part, and the three integers returned fit 64 bits. *)
Theorem parseEnhancedCode_accepted (s : string) (code : EnhancedCodeT) :
  check.parseEnhancedCode s = (code, None) ->
  countByte "." s = 2%nat
  /\ Forall (fun part => part <> "") (gostrings.Split s ".")
  /\ isInt code.1.1 /\ isInt code.1.2 /\ isInt code.2.
Proof.
  unfold check.parseEnhancedCode.
  pose proof (Split_length s ".") as Hlen.
  destruct (gostrings.Split s ".") as [|p0 [|p1 [|p2 [|p3 ps]]]];
    cbn [length Nat.eqb negb] in *; try discriminate 1.
  rewrite parseParts_three.
  destruct (strconv.Atoi p0) as [n0 [e0|]] eqn:H0; [discriminate 1|].
  destruct (strconv.Atoi p1) as [n1 [e1|]] eqn:H1; [discriminate 1|].
  destruct (strconv.Atoi p2) as [n2 [e2|]] eqn:H2; [discriminate 1|].
  intros Heq. inversion Heq. subst. cbn [fst snd].
  apply Atoi_range in H0, H1, H2.
  split; [lia|]. split; [|tauto].
  repeat constructor; tauto.
Qed.

Lemma parseEnhancedCode_accepted_witness :
  countByte "." "5.-7.1" = 2%nat
  /\ Forall (fun part => part <> "") (gostrings.Split "5.-7.1" ".")
  /\ isInt 5 /\ isInt (-7) /\ isInt 1.
Proof.
  apply (parseEnhancedCode_accepted "5.-7.1" (5, -7, 1)). reflexivity.
Defined.

(** ** The DNS checks, further *)

(** The paths through [requireMXRecord]: empty return-path, address that does
    not parse, empty domain, no address, lookup error, no record, records,
    address of another network. *)
Ltac mx_cases ctx mailFrom :=
  unfold dns.requireMXRecord;
  destruct (String.eqb_spec mailFrom "") as [Hfrom|Hfrom];
  [|destruct (address_Split mailFrom) as [[mailbox domain] [err|]] eqn:Hsplit;
    [|destruct (String.eqb_spec domain "") as [Hdomain|Hdomain];
      [|destruct (dns.SrcAddr (dns.MsgMeta ctx)) as [|a|network str] eqn:Haddr;
        [|unfold dns.bind, dns.lookupMX; cbn [fst snd];
          destruct (dns.LookupMX (dns.resolver ctx) domain)
            as [srcMx [lerr|]] eqn:Hlookup;
          [|destruct srcMx as [|mx srcMx]]|]]]].

(** The paths through [requireMatchingEHLO]: no address, malformed literal,
    literal of another address, literal of the client, lookup error, an
    address of the client found, none found, address of another network. *)
Ltac ehlo_cases ctx :=
  unfold dns.requireMatchingEHLO;
  destruct (dns.SrcAddr (dns.MsgMeta ctx)) as [|a|network str] eqn:Haddr;
  [|destruct (gostrings.HasPrefix (dns.SrcHostname (dns.MsgMeta ctx)) "["
              && gostrings.HasSuffix (dns.SrcHostname (dns.MsgMeta ctx)) "]")
      eqn:Hlit;
    [destruct (ParseIP _) as [ehloIP|] eqn:Hparse;
     [destruct (net.Equal ehloIP (net.tcpIP a)) eqn:Hequal; cbn [negb]|]
    |unfold dns.bind, dns.lookupIPAddr; cbn [fst snd];
     destruct (dns.LookupIPAddr (dns.resolver ctx)
                 (dns.SrcHostname (dns.MsgMeta ctx)))
       as [srcIPs [lerr|]] eqn:Hlookup;
     [|destruct (dns.findIP (net.tcpIP a) srcIPs) as [found|] eqn:Hfind]]|].

Section DNSChecksFurther.
Context `{Imports}.

Lemma lookupFailure_class (err : error) (checkName : string) :
  let e := dns.lookupFailure err checkName in
  CheckName e = checkName
  /\ (transient e \/ permanent e)
  /\ (Code e `quot` 100 = 4 -> IsTemporary err = true).
Proof.
  unfold dns.lookupFailure, transient, permanent.
  destruct (IsTemporary err); cbn; split; try reflexivity;
    split; try (intros; reflexivity); try discriminate.
  - left. split; reflexivity.
  - right. split; reflexivity.
Qed.

Lemma checks_flags_false
  (ctx : dns.StatelessCheckContext) (mailFrom : string) :
  (module.Reject (dns.requireMatchingRDNS ctx).1 = false
   /\ module.Quarantine (dns.requireMatchingRDNS ctx).1 = false)
  /\ (module.Reject (dns.requireMXRecord ctx mailFrom).1 = false
      /\ module.Quarantine (dns.requireMXRecord ctx mailFrom).1 = false)
  /\ (module.Reject (dns.requireMatchingEHLO ctx).1 = false
      /\ module.Quarantine (dns.requireMatchingEHLO ctx).1 = false).
Proof.
  split; [|split].
  - unfold dns.requireMatchingRDNS.
    destruct (dns.SrcRDNSName _) as [fut|]; [|split; reflexivity].
    destruct (dns.Get fut); try (split; reflexivity).
    destruct (EqualFold _ _); split; reflexivity.
  - mx_cases ctx mailFrom; split; reflexivity.
  - ehlo_cases ctx; split; reflexivity.
Qed.

(** X19: the three checks only ever fill in the reason: in every result they
    return both flags are false, so that rejecting or quarantining is left to
    the configured action. *)
Theorem checks_leave_flags
  (ctx : dns.StatelessCheckContext) (mailFrom : string)
  (res : module.CheckResult) :
  res = (dns.requireMatchingRDNS ctx).1
  \/ res = (dns.requireMXRecord ctx mailFrom).1
  \/ res = (dns.requireMatchingEHLO ctx).1 ->
  module.Reject res = false /\ module.Quarantine res = false.
Proof.
  intros [-> | [-> | ->]]; apply (checks_flags_false ctx mailFrom).
Qed.

(** X20: [requireMatchingRDNS] passes exactly when the rDNS lookup is
    disabled (no future), or the future holds a string that equals the source
    hostname under case folding once one trailing dot is cut from each. *)
Theorem requireMatchingRDNS_verdict (ctx : dns.StatelessCheckContext) :
  module.Reason (dns.requireMatchingRDNS ctx).1 = None
  <-> dns.SrcRDNSName (dns.MsgMeta ctx) = None
      \/ exists fut name,
           dns.SrcRDNSName (dns.MsgMeta ctx) = Some fut
           /\ dns.Get fut = dns.anyString name
           /\ EqualFold (gostrings.TrimSuffix name ".")
                 (gostrings.TrimSuffix (dns.SrcHostname (dns.MsgMeta ctx)) ".")
              = true.
Proof.
  unfold dns.requireMatchingRDNS.
  destruct (dns.SrcRDNSName (dns.MsgMeta ctx)) as [fut|];
    [|split; [left|]; reflexivity].
  destruct (dns.Get fut) as [|name|e] eqn:Hget.
  - cbn. split; [discriminate|].
    intros [Hn|(f & n & Hf & Hg & _)]; [discriminate Hn|].
    inversion Hf. subst f. congruence.
  - destruct (EqualFold _ _) eqn:Hfold; cbn.
    + split; [|reflexivity]. intros _. right. exists fut, name. auto.
    + split; [discriminate|].
      intros [Hn|(f & n & Hf & Hg & He)]; [discriminate Hn|].
      inversion Hf. subst f. rewrite Hget in Hg. inversion Hg. subst n.
      congruence.
  - cbn. split; [discriminate|].
    intros [Hn|(f & n & Hf & Hg & _)]; [discriminate Hn|].
    inversion Hf. subst f. congruence.
Qed.

(** X21: [requireMatchingRDNS] never queries the resolver (its trace holds
    calls to the logger only), and every reason it returns is an [SMTPError]
    of the check "require_matching_rdns" with enhanced code 4.7.25 or 5.7.25
    and no wrapped cause. *)
Theorem requireMatchingRDNS_no_lookup (ctx : dns.StatelessCheckContext) :
  Forall isLog (dns.requireMatchingRDNS ctx).2
  /\ (forall r, module.Reason (dns.requireMatchingRDNS ctx).1 = Some r ->
        exists e : SMTPError,
          r = SMTPErr e
          /\ CheckName e = "require_matching_rdns"
          /\ Err e = None
          /\ (EnhancedCode e = (4, 7, 25) \/ EnhancedCode e = (5, 7, 25))).
Proof.
  assert (Hlog : forall method format args,
             Forall isLog [dns.evLog method format args]).
  { intros. repeat constructor. unfold isLog. eauto. }
  unfold dns.requireMatchingRDNS.
  destruct (dns.SrcRDNSName (dns.MsgMeta ctx)) as [fut|];
    [|split; [apply Hlog | discriminate 1]].
  destruct (dns.Get fut) as [|name|e];
    [|destruct (EqualFold _ _)|]; cbn;
    (split; [first [apply Hlog | constructor]|]);
    intros r Hr; inversion Hr; eauto 10.
Qed.

Lemma substring_skip (n m : nat) (c : ascii) (s : string) :
  substring (S n) m (String c s) = substring n m s.
Proof. reflexivity. Qed.

Lemma append_cons (c : ascii) (s t : string) :
  String c s +:+ t = String c (s +:+ t).
Proof. reflexivity. Qed.

Lemma length_append_dot (s : string) :
  String.length (s +:+ ".") = S (String.length s).
Proof.
  induction s as [|c s IH]; [reflexivity|].
  rewrite append_cons. cbn [String.length]. rewrite IH. reflexivity.
Qed.

Lemma substring_last_dot (s : string) :
  substring (String.length s) 1 (s +:+ ".") = ".".
Proof.
  induction s as [|c s IH]; [reflexivity|].
  rewrite append_cons. cbn [String.length]. rewrite substring_skip.
  exact IH.
Qed.

Lemma substring_before_dot (s : string) :
  substring 0 (String.length s) (s +:+ ".") = s.
Proof.
  induction s as [|c s IH]; [reflexivity|].
  rewrite append_cons. cbn [String.length substring].
  rewrite IH. reflexivity.
Qed.

(** [strings.TrimSuffix] cuts exactly the dot that was appended. *)
Lemma TrimSuffix_dot (s : string) : gostrings.TrimSuffix (s +:+ ".") "." = s.
Proof.
  unfold gostrings.TrimSuffix, gostrings.HasSuffix.
  rewrite length_append_dot.
  change (String.length ".") with 1%nat.
  replace (S (String.length s) - 1)%nat with (String.length s) by lia.
  rewrite substring_last_dot, substring_before_dot. reflexivity.
Qed.

Lemma TrimSuffix_none (s : string) :
  gostrings.HasSuffix s "." = false -> gostrings.TrimSuffix s "." = s.
Proof. intros Hs. unfold gostrings.TrimSuffix. rewrite Hs. reflexivity. Qed.

(** X22: one trailing dot on the rDNS name, on the source hostname or on both
    does not change what [requireMatchingRDNS] returns, result and trace
    alike. *)
Theorem requireMatchingRDNS_trailing_dot
  (r : dns.Resolver) (name host : string) (addr : net.Addr) :
  gostrings.HasSuffix name "." = false ->
  gostrings.HasSuffix host "." = false ->
  let rdns (n h : string) :=
    dns.requireMatchingRDNS
      (connection r (Some {| dns.Get := dns.anyString n |}) h addr) in
  rdns (name +:+ ".") host = rdns name host
  /\ rdns name (host +:+ ".") = rdns name host
  /\ rdns (name +:+ ".") (host +:+ ".") = rdns name host.
Proof.
  intros Hname Hhost rdns. subst rdns.
  unfold dns.requireMatchingRDNS, connection. cbn [dns.SrcRDNSName
    dns.MsgMeta dns.Get dns.SrcHostname].
  rewrite !TrimSuffix_dot, !(TrimSuffix_none name Hname),
    !(TrimSuffix_none host Hhost).
  repeat split.
Qed.

(** X23: [requireMXRecord] passes exactly when the return-path is empty, or
    the address parses with a non-empty domain and either the client has no
    TCP address or the lookup of that domain returns at least one MX record
    and no error. *)
Theorem requireMXRecord_verdict
  (ctx : dns.StatelessCheckContext) (mailFrom : string) :
  module.Reason (dns.requireMXRecord ctx mailFrom).1 = None
  <-> mailFrom = ""
      \/ exists mailbox domain,
           address_Split mailFrom = (mailbox, domain, None)
           /\ domain <> ""
           /\ ((forall a, dns.SrcAddr (dns.MsgMeta ctx) <> net.ofTCPAddr a)
               \/ exists mx srcMx,
                    dns.LookupMX (dns.resolver ctx) domain
                    = (mx :: srcMx, None)).
Proof.
  mx_cases ctx mailFrom; cbn; (split; [intros Hr|intros Hor]);
    try discriminate Hr; try reflexivity.
  - left. assumption.
  - destruct Hor as [?|(mb & d & Hs & _)]; [contradiction | discriminate Hs].
  - destruct Hor as [?|(mb & d & Hs & Hd & _)]; [contradiction|].
    inversion Hs. subst. contradiction.
  - right. exists mailbox, domain. repeat split; auto; left; discriminate.
  - destruct Hor as [?|(mb & d & Hs & Hd & [Hn|(m & l & Hl)])];
      [contradiction| |]; inversion Hs; subst.
    + exfalso. apply (Hn a). reflexivity.
    + rewrite Hlookup in Hl. discriminate Hl.
  - destruct Hor as [?|(mb & d & Hs & Hd & [Hn|(m & l & Hl)])];
      [contradiction| |]; inversion Hs; subst.
    + exfalso. apply (Hn a). reflexivity.
    + rewrite Hlookup in Hl. discriminate Hl.
  - right. exists mailbox, domain. repeat split; auto; right; eauto.
  - right. exists mailbox, domain. repeat split; auto; left; discriminate.
Qed.

(** X24: [requireMXRecord] queries the resolver at most once, and only for
    the domain of a return-path that parsed, when that domain is not empty
    and the client has a TCP address; anything else in its trace is a call to
    the logger. *)
Theorem requireMXRecord_single_lookup
  (ctx : dns.StatelessCheckContext) (mailFrom : string) :
  (length (dns.requireMXRecord ctx mailFrom).2 <= 1)%nat
  /\ (forall ev, In ev (dns.requireMXRecord ctx mailFrom).2 ->
        isLog ev
        \/ exists mailbox domain a,
             ev = dns.evLookupMX domain
             /\ mailFrom <> ""
             /\ address_Split mailFrom = (mailbox, domain, None)
             /\ domain <> ""
             /\ dns.SrcAddr (dns.MsgMeta ctx) = net.ofTCPAddr a).
Proof.
  mx_cases ctx mailFrom; cbn; (split; [lia|]);
    intros ev Hin; repeat (destruct Hin as [<-|Hin]); try destruct Hin;
    try (left; unfold isLog; eauto; fail);
    right; exists mailbox, domain, a; auto.
Qed.

(** X25: a transient reason from the MX check or the EHLO check always stems
    from a resolver error classified as temporary: the reason wraps that
    error, and the failed lookup is in the trace. *)
Theorem transient_only_from_temporary_error
  (ctx : dns.StatelessCheckContext) (mailFrom : string)
  (run : dns.M module.CheckResult) (e : SMTPError) :
  run = dns.requireMXRecord ctx mailFrom
  \/ run = dns.requireMatchingEHLO ctx ->
  module.Reason run.1 = Some (SMTPErr e) ->
  Code e `quot` 100 = 4 ->
  exists err,
    Err e = Some err
    /\ IsTemporary err = true
    /\ (mxLookupFailed ctx run.2 err \/ ipLookupFailed ctx run.2 err).
Proof.
  intros [-> | ->].
  - mx_cases ctx mailFrom; cbn; intros Hr Hcode; inversion Hr; subst e;
      try discriminate Hcode.
    exists lerr.
    split; [apply (lookupFailure_fields lerr "require_mx_record")|].
    split; [apply (lookupFailure_class lerr "require_mx_record"); exact Hcode|].
    left. exists domain, srcMx. split; [left; reflexivity | assumption].
  - ehlo_cases ctx; cbn; intros Hr Hcode; inversion Hr; subst e;
      try discriminate Hcode.
    exists lerr.
    split; [apply (lookupFailure_fields lerr "require_matching_ehlo")|].
    split; [apply (lookupFailure_class lerr "require_matching_ehlo");
            exact Hcode|].
    right. eexists. exists srcIPs. split; [left; reflexivity | assumption].
Qed.

(** X26: every [SMTPError] the MX check returns names "require_mx_record",
    every reason the EHLO check returns is an [SMTPError] naming
    "require_matching_ehlo", and in all of them the first digit of the code
    and the class of the enhanced code agree, both 4 or both 5. *)
Theorem lookup_checks_reasons
  (ctx : dns.StatelessCheckContext) (mailFrom : string) :
  (forall e : SMTPError,
     module.Reason (dns.requireMXRecord ctx mailFrom).1 = Some (SMTPErr e) ->
     CheckName e = "require_mx_record" /\ (transient e \/ permanent e))
  /\ (forall r : error,
        module.Reason (dns.requireMatchingEHLO ctx).1 = Some r ->
        exists e : SMTPError,
          r = SMTPErr e
          /\ CheckName e = "require_matching_ehlo"
          /\ (transient e \/ permanent e)).
Proof.
  split.
  - intros e. mx_cases ctx mailFrom; cbn; intros Hr; inversion Hr; subst;
      try (split; [reflexivity | right; split; reflexivity]).
    destruct (lookupFailure_class lerr "require_mx_record") as (Hn & Hc & _).
    split; assumption.
  - intros r. ehlo_cases ctx; cbn; intros Hr; inversion Hr; subst;
      eexists; (split; [reflexivity|]);
      try (split; [reflexivity | right; split; reflexivity]).
    destruct (lookupFailure_class lerr "require_matching_ehlo")
      as (Hn & Hc & _).
    split; assumption.
Qed.

Lemma findIP_None (clientIP : net.IP) (srcIPs : list net.IPAddr) :
  dns.findIP clientIP srcIPs = None
  <-> forall ip, In ip srcIPs -> net.Equal clientIP (net.ipIP ip) = false.
Proof.
  induction srcIPs as [|ip rest IH]; cbn [dns.findIP].
  - split; [intros _ ip [] | reflexivity].
  - destruct (net.Equal clientIP (net.ipIP ip)) eqn:Heq.
    + split; [discriminate|]. intros Hall.
      rewrite (Hall ip (or_introl eq_refl)) in Heq. discriminate Heq.
    + rewrite IH. split.
      * intros Hall ip' [<-|Hin]; auto.
      * intros Hall ip' Hin. apply Hall. right. exact Hin.
Qed.

Lemma findIP_Some (clientIP : net.IP) (srcIPs : list net.IPAddr)
  (found : net.IPAddr) :
  dns.findIP clientIP srcIPs = Some found ->
  In found srcIPs /\ net.Equal clientIP (net.ipIP found) = true.
Proof.
  induction srcIPs as [|ip rest IH]; cbn [dns.findIP]; [discriminate 1|].
  destruct (net.Equal clientIP (net.ipIP ip)) eqn:Heq.
  - intros Hf. inversion Hf. subst. split; [left; reflexivity | exact Heq].
  - intros Hf. destruct (IH Hf) as [Hin Hequal]. split; [right|]; assumption.
Qed.

(** X27: for a bracketed IP literal [requireMatchingEHLO] makes no lookup
    and logs nothing; it passes exactly when the text between the brackets
    parses as an IP equal to the client's, and otherwise fails with code 550
    and enhanced code 5.7.0. *)
Theorem requireMatchingEHLO_literal
  (ctx : dns.StatelessCheckContext) (a : net.TCPAddr) :
  let ehlo := dns.SrcHostname (dns.MsgMeta ctx) in
  dns.SrcAddr (dns.MsgMeta ctx) = net.ofTCPAddr a ->
  gostrings.HasPrefix ehlo "[" && gostrings.HasSuffix ehlo "]" = true ->
  (dns.requireMatchingEHLO ctx).2 = []
  /\ (module.Reason (dns.requireMatchingEHLO ctx).1 = None
      <-> exists ehloIP,
            ParseIP (substring 1 (String.length ehlo - 1 - 1) ehlo)
            = Some ehloIP
            /\ net.Equal ehloIP (net.tcpIP a) = true)
  /\ (forall r, module.Reason (dns.requireMatchingEHLO ctx).1 = Some r ->
        exists e : SMTPError,
          r = SMTPErr e /\ Code e = 550 /\ EnhancedCode e = (5, 7, 0)).
Proof.
  intros ehlo Haddr' Hlit'. subst ehlo.
  unfold dns.requireMatchingEHLO. rewrite Haddr', Hlit'.
  destruct (ParseIP _) as [ehloIP|] eqn:Hparse;
    [destruct (net.Equal ehloIP (net.tcpIP a)) eqn:Hequal; cbn [negb]|];
    cbn; (split; [reflexivity|]); split;
    try (intros r Hr; inversion Hr; eauto; fail);
    split; try discriminate; try reflexivity.
  - intros _. eauto.
  - intros (ip & Hip & Heq). inversion Hip. subst. congruence.
  - intros (ip & Hip & _). discriminate Hip.
Qed.

(** X28: for a hostname that is no bracketed literal, when the lookup of its
    addresses returns without error, [requireMatchingEHLO] passes exactly
    when one of the addresses returned equals the client's; the hostname
    looked up is the one the client gave. *)
Theorem requireMatchingEHLO_hostname
  (ctx : dns.StatelessCheckContext) (a : net.TCPAddr)
  (srcIPs : list net.IPAddr) :
  let ehlo := dns.SrcHostname (dns.MsgMeta ctx) in
  dns.SrcAddr (dns.MsgMeta ctx) = net.ofTCPAddr a ->
  gostrings.HasPrefix ehlo "[" && gostrings.HasSuffix ehlo "]" = false ->
  dns.LookupIPAddr (dns.resolver ctx) ehlo = (srcIPs, None) ->
  (module.Reason (dns.requireMatchingEHLO ctx).1 = None
   <-> exists ip, In ip srcIPs
                  /\ net.Equal (net.tcpIP a) (net.ipIP ip) = true)
  /\ (forall ev, In ev (dns.requireMatchingEHLO ctx).2 ->
        isLog ev \/ ev = dns.evLookupIPAddr ehlo).
Proof.
  intros ehlo Haddr' Hlit' Hlookup'. subst ehlo.
  unfold dns.requireMatchingEHLO. rewrite Haddr', Hlit'.
  unfold dns.bind, dns.lookupIPAddr. cbn [fst snd]. rewrite Hlookup'.
  destruct (dns.findIP (net.tcpIP a) srcIPs) as [found|] eqn:Hfind; cbn.
  - split.
    + split; [intros _|reflexivity].
      exists found. apply findIP_Some. exact Hfind.
    + intros ev [<-|[<-|[]]]; [right; reflexivity|].
      left. unfold isLog. eauto.
  - split.
    + split; [discriminate|]. intros (ip & Hin & Heq).
      rewrite (proj1 (findIP_None _ _) Hfind ip Hin) in Heq.
      discriminate Heq.
    + intros ev [<-|[]]. right. reflexivity.
Qed.

(** X29: under the action each check is registered with in [init], a
    failure of the check is quarantined and never rejected, a pass is left
    alone, and the reason is the one the check gave. *)
Theorem registered_default_action
  (reg : dns.registration) (res : dns.M module.CheckResult) :
  In reg dns.init ->
  resultOf reg res ->
  let out := check.Apply (dns.defaultFailAction reg) res.1 in
  module.Reason out = module.Reason res.1
  /\ module.Reject out = false
  /\ (module.Quarantine out = true <-> module.Reason res.1 <> None).
Proof.
  intros Hreg Hres out. subst out.
  assert (Hflags : module.Reject res.1 = false
                   /\ module.Quarantine res.1 = false).
  { cbn in Hreg.
    destruct Hreg as [<-|[<-|[<-|[]]]];
      destruct Hres as [(f & ctx & Hf & ->)|(f & ctx & mailFrom & Hf & ->)];
      inversion Hf; subst f;
      apply (checks_flags_false ctx "") || apply (checks_flags_false ctx mailFrom). }
  assert (Haction : dns.defaultFailAction reg
                    = {| check.Quarantine := true; check.Reject := false;
                         check.ReasonOverride := None |}).
  { cbn in Hreg. destruct Hreg as [<-|[<-|[<-|[]]]]; reflexivity. }
  rewrite Haction. destruct Hflags as [Hrej Hquar].
  destruct (module.Reason res.1) as [reason|] eqn:Hr.
  - rewrite (Apply_fail _ _ reason Hr). cbn. rewrite Hrej.
    repeat split; discriminate.
  - rewrite Apply_pass by assumption. rewrite Hr, Hrej, Hquar.
    repeat split; try discriminate. intros Hn. congruence.
Qed.

(** X30: every [SMTPError] a registered check returns carries, as its check
    name, the name the check is registered under. *)
Theorem registered_check_names
  (reg : dns.registration) (res : dns.M module.CheckResult)
  (e : SMTPError) :
  In reg dns.init ->
  resultOf reg res ->
  module.Reason res.1 = Some (SMTPErr e) ->
  CheckName e = dns.name reg.
Proof.
  intros Hreg Hres. cbn in Hreg.
  destruct Hreg as [<-|[<-|[<-|[]]]];
    destruct Hres as [(f & ctx & Hf & ->)|(f & ctx & mailFrom & Hf & ->)];
    inversion Hf; subst f; cbn [dns.name].
  - unfold dns.requireMatchingRDNS.
    destruct (dns.SrcRDNSName _) as [fut|]; [|discriminate 1].
    destruct (dns.Get fut); [|destruct (EqualFold _ _)|]; cbn;
      intros Hr; inversion Hr; reflexivity.
  - mx_cases ctx mailFrom; cbn; intros Hr; inversion Hr; try reflexivity.
    apply (lookupFailure_class lerr "require_mx_record").
  - ehlo_cases ctx; cbn; intros Hr; inversion Hr; try reflexivity.
    apply (lookupFailure_class lerr "require_matching_ehlo").
Qed.

End DNSChecksFurther.

Lemma checks_leave_flags_witness :
  let ctx := Sample.context (Sample.failing Sample.timeout) None in
  module.Reject (@dns.requireMXRecord Sample.imports ctx "a@example.org").1
    = false
  /\ module.Quarantine
       (@dns.requireMXRecord Sample.imports ctx "a@example.org").1 = false.
Proof.
  intros ctx.
  apply (@checks_leave_flags Sample.imports ctx "a@example.org").
  right. left. reflexivity.
Defined.

Lemma requireMatchingRDNS_verdict_witness :
  module.Reason
    (@dns.requireMatchingRDNS Sample.imports
       (Sample.context Sample.empty
          (Some {| dns.Get := dns.anyString "MAIL.example.com." |}))).1
  = None.
Proof.
  apply (proj2 (@requireMatchingRDNS_verdict Sample.imports _)).
  right. eexists. exists "MAIL.example.com.".
  split; [reflexivity|]. split; reflexivity.
Defined.

Lemma requireMatchingRDNS_no_lookup_witness :
  exists e : SMTPError,
    SMTPErr (dns.smtpError 550 (5, 7, 25)
               "rDNS name does not match source hostname"
               "require_matching_rdns") = SMTPErr e
    /\ CheckName e = "require_matching_rdns"
    /\ Err e = None
    /\ (EnhancedCode e = (4, 7, 25) \/ EnhancedCode e = (5, 7, 25)).
Proof.
  apply (proj2 (@requireMatchingRDNS_no_lookup Sample.imports
                  (Sample.context Sample.empty
                     (Some {| dns.Get := dns.anyString "mail.evil.com" |})))).
  reflexivity.
Defined.

Lemma requireMatchingRDNS_trailing_dot_witness :
  @dns.requireMatchingRDNS Sample.imports
    (connection Sample.empty
       (Some {| dns.Get := dns.anyString ("mail.example.com" +:+ ".") |})
       "mail.example.com" Sample.client)
  = @dns.requireMatchingRDNS Sample.imports
      (connection Sample.empty
         (Some {| dns.Get := dns.anyString "mail.example.com" |})
         "mail.example.com" Sample.client).
Proof.
  apply (@requireMatchingRDNS_trailing_dot Sample.imports Sample.empty
           "mail.example.com" "mail.example.com" Sample.client);
    reflexivity.
Defined.

Lemma requireMXRecord_verdict_witness :
  module.Reason
    (@dns.requireMXRecord Sample.imports
       (Sample.context Sample.found None) "a@example.org").1 = None.
Proof.
  apply (proj2 (@requireMXRecord_verdict Sample.imports _ _)).
  right. exists "a", "example.org".
  split; [reflexivity|]. split; [discriminate|].
  right. eexists. exists []. reflexivity.
Defined.

Lemma requireMXRecord_single_lookup_witness :
  let ctx := Sample.context Sample.found None in
  isLog (dns.evLookupMX "example.org")
  \/ exists mailbox domain a,
       dns.evLookupMX "example.org" = dns.evLookupMX domain
       /\ "a@example.org" <> ""
       /\ Sample.splitAt "a@example.org" = (mailbox, domain, None)
       /\ domain <> ""
       /\ dns.SrcAddr (dns.MsgMeta ctx) = net.ofTCPAddr a.
Proof.
  intros ctx.
  apply (proj2 (@requireMXRecord_single_lookup Sample.imports ctx
                  "a@example.org")).
  left. reflexivity.
Defined.

Lemma transient_only_from_temporary_error_witness :
  let ctx := Sample.context (Sample.failing Sample.timeout) None in
  let run := @dns.requireMXRecord Sample.imports ctx "a@example.org" in
  exists err,
    Err (@dns.lookupFailure Sample.imports Sample.timeout "require_mx_record")
      = Some err
    /\ Sample.temporary err = true
    /\ (mxLookupFailed ctx run.2 err \/ ipLookupFailed ctx run.2 err).
Proof.
  intros ctx run.
  apply (@transient_only_from_temporary_error Sample.imports ctx
           "a@example.org" run
           (@dns.lookupFailure Sample.imports Sample.timeout
              "require_mx_record")).
  - left. reflexivity.
  - reflexivity.
  - reflexivity.
Defined.

Lemma lookup_checks_reasons_witness :
  let ctx := Sample.context Sample.empty None in
  exists e : SMTPError,
    SMTPErr (dns.smtpError 550 (5, 7, 0)
               "No matching A/AAA records found for EHLO hostname"
               "require_matching_ehlo") = SMTPErr e
    /\ CheckName e = "require_matching_ehlo"
    /\ (transient e \/ permanent e).
Proof.
  intros ctx.
  apply (proj2 (@lookup_checks_reasons Sample.imports ctx "")).
  reflexivity.
Defined.

Lemma requireMatchingEHLO_literal_witness :
  let ctx := connection Sample.empty None "[192.0.2.1]" Sample.client in
  (@dns.requireMatchingEHLO Sample.imports ctx).2 = []
  /\ module.Reason (@dns.requireMatchingEHLO Sample.imports ctx).1 = None.
Proof.
  intros ctx.
  destruct (@requireMatchingEHLO_literal Sample.imports ctx
              {| net.tcpIP := [192; 0; 2; 1]; net.Port := 25;
                 net.tcpZone := "" |} eq_refl eq_refl)
    as (Htrace & Hpass & _).
  split; [exact Htrace|].
  apply Hpass. eexists. split; reflexivity.
Defined.

Lemma requireMatchingEHLO_hostname_witness :
  let ctx := Sample.context Sample.found None in
  module.Reason (@dns.requireMatchingEHLO Sample.imports ctx).1 = None.
Proof.
  intros ctx.
  destruct (@requireMatchingEHLO_hostname Sample.imports ctx
              {| net.tcpIP := [192; 0; 2; 1]; net.Port := 25;
                 net.tcpZone := "" |}
              [ {| net.ipIP := [192; 0; 2; 1]; net.ipZone := "" |} ]
              eq_refl eq_refl eq_refl) as (Hpass & _).
  apply Hpass. eexists. split; [left; reflexivity | reflexivity].
Defined.

Lemma registered_default_action_witness :
  let ctx := Sample.context Sample.empty None in
  let res := @dns.requireMXRecord Sample.imports ctx "a@example.org" in
  let action := {| check.Quarantine := true; check.Reject := false;
                   check.ReasonOverride := None |} in
  module.Reason (check.Apply action res.1) = module.Reason res.1
  /\ module.Reject (check.Apply action res.1) = false
  /\ (module.Quarantine (check.Apply action res.1) = true
      <-> module.Reason res.1 <> None).
Proof.
  intros ctx res action.
  apply (@registered_default_action Sample.imports
           {| dns.name := "require_mx_record";
              dns.defaultFailAction := action;
              dns.connCheck := None;
              dns.senderCheck := Some (@dns.requireMXRecord Sample.imports) |}
           res).
  - right. left. reflexivity.
  - right. exists (@dns.requireMXRecord Sample.imports), ctx, "a@example.org".
    split; reflexivity.
Defined.

Lemma registered_check_names_witness :
  CheckName (dns.smtpError 501 (5, 7, 27)
               "Domain in MAIL FROM has no MX records" "require_mx_record")
  = "require_mx_record".
Proof.
  apply (@registered_check_names Sample.imports
           {| dns.name := "require_mx_record";
              dns.defaultFailAction :=
                {| check.Quarantine := true; check.Reject := false;
                   check.ReasonOverride := None |};
              dns.connCheck := None;
              dns.senderCheck := Some (@dns.requireMXRecord Sample.imports) |}
           (@dns.requireMXRecord Sample.imports
              (Sample.context Sample.empty None) "a@example.org")).
  - right. left. reflexivity.
  - right. exists (@dns.requireMXRecord Sample.imports),
      (Sample.context Sample.empty None), "a@example.org".
    split; reflexivity.
  - reflexivity.
Defined.
